(** * bucky cluster discovery ([bucky/cluster.go])

    A shallow embedding of [GetClusterConfig] and [isHealthy], the
    client-side discovery of a buckyd cluster: the seed daemon is asked for
    its hash ring, a [ClusterConfig] is built from the answer, every other
    server is asked for its own ring and the answers are compared.

    Go strings are byte sequences and are modelled by [string]; Go pointers
    are modelled by [ptr] (an [option], [nil] being [None]); a run-time
    panic is an explicit outcome; the package-level variables [Cluster] and
    [HostPort], the allocated [ClusterConfig] objects, the calls made to the
    remote daemons and the lines written to the log are fields of an
    explicit process state that is threaded through the code. *)

From Stdlib Require Import String Ascii List ZArith Bool Arith Lia Permutation.
Import ListNotations.

Set Implicit Arguments.
Local Open Scope string_scope.

(** ** Go values *)

(** A Go pointer: either [nil] or the object pointed to. *)
Definition ptr (A : Type) : Type := option A.
Definition nil_ptr {A : Type} : ptr A := None.

(** A Go [error] value, identified with the text of its [Error()] method. *)
Definition error : Type := string.

(** The two run-time panics the code of this file can raise. *)
Inductive runtimeError : Type :=
| NilDereference
| IndexOutOfRange.

(** The outcome of running Go code: it returns, or it panics. *)
Inductive Outcome (A : Type) : Type :=
| Ret (a : A)
| Panic (why : runtimeError).
Arguments Ret {A} a.
Arguments Panic {A} why.

(** ** A small monad interface, shared by pure and stateful code *)

Class Monad (M : Type -> Type) : Type := {
  ret : forall {A : Type}, A -> M A;
  bind : forall {A B : Type}, M A -> (A -> M B) -> M B
}.

Declare Scope go_scope.
Delimit Scope go_scope with go.
Notation "x <- c1 ;; c2" := (bind c1 (fun x => c2))
  (at level 61, c1 at next level, right associativity) : go_scope.
Notation "' pat <- c1 ;; c2" := (bind c1 (fun x => match x with pat => c2 end))
  (at level 61, pat pattern, c1 at next level, right associativity) : go_scope.
Notation "c1 ;; c2" := (bind c1 (fun _ => c2))
  (at level 61, right associativity) : go_scope.
Local Open Scope go_scope.

Definition Outcome_bind {A B : Type} (c : Outcome A) (k : A -> Outcome B) : Outcome B :=
  match c with
  | Ret a => k a
  | Panic why => Panic why
  end.

#[export] Instance Monad_Outcome : Monad Outcome := {
  ret := fun _ a => Ret a;
  bind := fun _ _ c k => Outcome_bind c k
}.

(** [*p]: dereferencing [nil] panics. *)
Definition deref {A : Type} (p : ptr A) : Outcome A :=
  match p with
  | Some a => Ret a
  | None => Panic NilDereference
  end.

(** [l[j]]: indexing past the end panics. *)
Definition index {A : Type} (l : list A) (j : nat) : Outcome A :=
  match nth_error l j with
  | Some a => Ret a
  | None => Panic IndexOutOfRange
  end.

(** A [for ... range] loop whose body may [return]: the body yields
    [Some r] to return [r] from the enclosing function and [None] to go on
    with the next element. *)
Fixpoint forRange {M : Type -> Type} `{Monad M} {A R : Type}
    (l : list A) (body : A -> M (option R)) : M (option R) :=
  match l with
  | [] => ret None
  | x :: xs =>
      r <- body x ;;
      match r with
      | Some v => ret (Some v)
      | None => forRange xs body
      end
  end.

(** ** The Go standard library functions the code calls *)

Module strings.

(** [strings.Split(s, sep)] for a one-byte separator (the only call of the
    file passes [":"]): the pieces of [s] between the occurrences of [sep],
    in order; there is always at least one piece. *)
Fixpoint Split (s : string) (sep : ascii) : list string :=
  match s with
  | EmptyString => [EmptyString]
  | String c rest =>
      if Ascii.eqb c sep then EmptyString :: Split rest sep
      else match Split rest sep with
           | f :: fs => String c f :: fs
           | [] => [String c EmptyString]
           end
  end.

End strings.

Module net.

(** [bytealg.IndexByteString]: the first position of [c] in [s], or [-1]. *)
Fixpoint IndexByte (s : string) (c : ascii) : Z :=
  match s with
  | EmptyString => (-1)%Z
  | String d rest =>
      if Ascii.eqb d c then 0%Z
      else let i := IndexByte rest c in
           if (i <? 0)%Z then (-1)%Z else (i + 1)%Z
  end.

(** [bytealg.LastIndexByteString]: the last position of [c] in [s], or [-1]. *)
Fixpoint LastIndexByte (s : string) (c : ascii) : Z :=
  match s with
  | EmptyString => (-1)%Z
  | String d rest =>
      let i := LastIndexByte rest c in
      if (0 <=? i)%Z then (i + 1)%Z
      else if Ascii.eqb d c then 0%Z else (-1)%Z
  end.

(** The slice [s[a:b]]. *)
Definition slice (s : string) (a b : Z) : string :=
  substring (Z.to_nat a) (Z.to_nat (b - a)) s.

Definition len (s : string) : Z := Z.of_nat (String.length s).

(** [(&AddrError{Err: why, Addr: addr}).Error()]: the reason, after the
    address when there is one. *)
Definition addrErr (addr why : string) : string * string * option error :=
  ("", "", Some (match addr with
                 | EmptyString => why
                 | _ => "address " ++ addr ++ ": " ++ why
                 end)).

Definition missingPort : string := "missing port in address".
Definition tooManyColons : string := "too many colons in address".

(** [net.SplitHostPort]: ["host:port"], ["[host]:port"] split into host and
    port, as the Go standard library does it. *)
Definition SplitHostPort (hostport : string) : string * string * option error :=
  let i := LastIndexByte hostport ":" in
  if (i <? 0)%Z then addrErr hostport missingPort else
  let bracketed :=
    match hostport with
    | String "[" _ => true
    | _ => false
    end in
  let after (host : string) (j k : Z) :=
    if (0 <=? IndexByte (slice hostport j (len hostport)) "[")%Z
    then addrErr hostport "unexpected '[' in address"
    else if (0 <=? IndexByte (slice hostport k (len hostport)) "]")%Z
    then addrErr hostport "unexpected ']' in address"
    else (host, slice hostport (i + 1) (len hostport), None) in
  if bracketed then
    let end_ := IndexByte hostport "]" in
    if (end_ <? 0)%Z then addrErr hostport "missing ']' in address"
    else if (end_ + 1 =? len hostport)%Z then addrErr hostport missingPort
    else if (end_ + 1 =? i)%Z then after (slice hostport 1 end_) 1%Z (end_ + 1)%Z
    else match String.get (Z.to_nat (end_ + 1)) hostport with
         | Some ":"%char => addrErr hostport tooManyColons
         | _ => addrErr hostport missingPort
         end
  else
    let host := slice hostport 0 i in
    if (0 <=? IndexByte host ":")%Z then addrErr hostport tooManyColons
    else after host 0%Z 0%Z.

End net.

(** ** Data model *)

(** Modelled from the spec: [JSONRingType], the ring a daemon reports, is
    declared in the imported [buckytools] package; the fields below are the
    ones [cluster.go] reads (the spec's RingSnapshot: algorithm, replicas,
    ordered node tokens). *)
Record JSONRingType : Type := mkRing {
  Algo : string;
  Replicas : Z;
  Nodes : list string
}.

(** Modelled from the spec: [hashing.Node], built positionally in
    [cluster.go] from the host name and the instance of a node token. *)
Record Node : Type := mkNode {
  name : string;
  instance : string
}.

(** Modelled from the spec: the [hashing] package's ring constructors and
    the one method of the [hashing.HashRing] interface that [cluster.go]
    calls.  The rings themselves are outside this file. *)
Class HashRing (R : Type) : Type := {
  NewCarbonHashRing : R;
  NewJumpHashRing : Z -> R;
  AddNode : R -> Node -> R
}.

(** [ClusterConfig]; [Hash] is an interface value and may be [nil]. *)
Record ClusterConfig (R : Type) : Type := mkClusterConfig {
  Port : string;
  Servers : list string;
  Hash : ptr R;
  Healthy : bool
}.
Arguments mkClusterConfig {R} _ _ _ _.

(** [new(ClusterConfig)]: the zero value. *)
Definition zeroClusterConfig {R : Type} : ClusterConfig R :=
  mkClusterConfig "" [] nil_ptr false.

(** ** [isHealthy] (lines 108-146)

    The [log.Printf] calls of [isHealthy] are diagnostics that do not
    influence the verdict; they are not part of the model, and no
    statement below is about the lines they write. *)

(** The inner loop (lines 137-142): [for j := range v.Nodes]. *)
Definition sameOrder (v master : JSONRingType) : Outcome (option bool) :=
  forRange (seq 0 (length (Nodes v))) (fun j =>
    a <- index (Nodes v) j ;;
    b <- index (Nodes master) j ;;
    if negb (a =? b) then ret (Some false) else ret None).

(** The body of the outer loop (lines 126-143) for one element of [ring]. *)
Definition checkMember (master : ptr JSONRingType) (v : ptr JSONRingType)
  : Outcome (option bool) :=
  m <- deref master ;;
  v' <- deref v ;;
  if negb (Algo m =? Algo v') then ret (Some false) else
  if negb (length (Nodes v') =? length (Nodes m))%nat then ret (Some false) else
  sameOrder v' m.

Definition isHealthy (master : ptr JSONRingType) (ring : list (ptr JSONRingType))
  : Outcome bool :=
  m <- deref master ;;
  if negb (length (Nodes m) =? length ring)%nat then ret false else
  r <- forRange ring (checkMember master) ;;
  match r with
  | Some verdict => ret verdict
  | None => ret true
  end.

(** ** Functions used to state the properties of [isHealthy] *)

(** Whether the byte [c] occurs in [s]. *)
Fixpoint occurs (c : ascii) (s : string) : bool :=
  match s with
  | EmptyString => false
  | String d rest => Ascii.eqb d c || occurs c rest
  end.

(** The host name of a node token: its first field. *)
Definition hostOf (token : string) : string :=
  hd "" (strings.Split token ":").

(** The instance of a node token: its second field, empty if there is none. *)
Definition instanceOf (token : string) : string :=
  nth 1 (strings.Split token ":") "".

Definition nodeOf (token : string) : Node :=
  mkNode (hostOf token) (instanceOf token).

(** A present member passes the three checks of [isHealthy]'s loop against
    [m]: same algorithm, same number of nodes, same node at every index. *)
Definition agrees (m v : JSONRingType) : bool :=
  (Algo m =? Algo v) &&
  (if list_eq_dec string_dec (Nodes v) (Nodes m) then true else false).

(** What [isHealthy]'s loop does on the members, one after the other. *)
Fixpoint verdict (m : JSONRingType) (ring : list (ptr JSONRingType)) : Outcome bool :=
  match ring with
  | [] => Ret true
  | None :: _ => Panic NilDereference
  | Some v :: rest => if agrees m v then verdict m rest else Ret false
  end.

(** Two rings that differ at most in their replica counts. *)
Definition sameButReplicas (a b : JSONRingType) : Prop :=
  Algo a = Algo b /\ Nodes a = Nodes b.

(** The same for pointers: both [nil], or both present and alike. *)
Definition sameButReplicasPtr (a b : ptr JSONRingType) : Prop :=
  match a, b with
  | None, None => True
  | Some x, Some y => sameButReplicas x y
  | _, _ => False
  end.

(** ** The process state and the monad of stateful code *)

(** The address of an allocated [ClusterConfig]: its position in the heap. *)
Definition loc : Type := nat.

Section Discovery.

(** The state of the remote daemons and of the network between them. *)
Variable W : Type.

(** The implementation of the hash rings. *)
Context {R : Type} `{HashRing R}.

(** [GetSingleHashRing] of the imported [buckytools] package: it asks the
    daemon at an address for its ring and returns a pointer to the answer
    and an error.  It is an external collaborator: any function of the
    address and of the state of the network. *)
Variable GetSingleHashRing : string -> W -> (ptr JSONRingType * option error) * W.

Record Process : Type := mkProcess {
  (** the package-level variable [HostPort] (declared in another file of
      package [main]) *)
  HostPort : string;
  (** the package-level variable [Cluster] (line 31) *)
  Cluster : ptr loc;
  (** the [ClusterConfig] objects allocated so far *)
  heap : list (ClusterConfig R);
  (** the remote daemons *)
  world : W;
  (** the addresses [GetSingleHashRing] was called with, oldest first *)
  probed : list string;
  (** the lines written by the [log.Printf] calls of [GetClusterConfig],
      oldest first; the diagnostics that [isHealthy] writes are not
      recorded *)
  logged : list string
}.

Definition Go (A : Type) : Type := Process -> Outcome (A * Process).

Definition Go_bind {A B : Type} (c : Go A) (k : A -> Go B) : Go B :=
  fun s =>
    match c s with
    | Ret (a, s') => k a s'
    | Panic why => Panic why
    end.

#[export] Instance Monad_Go : Monad Go := {
  ret := fun _ a s => Ret (a, s);
  bind := fun _ _ c k => Go_bind c k
}.

(** Pure code run inside stateful code. *)
Definition lift {A : Type} (c : Outcome A) : Go A :=
  fun s =>
    match c with
    | Ret a => Ret (a, s)
    | Panic why => Panic why
    end.

Definition getCluster : Go (ptr loc) := fun s => Ret (Cluster s, s).

Definition setCluster (p : ptr loc) : Go unit :=
  fun s => Ret (tt, mkProcess (HostPort s) p (heap s) (world s) (probed s) (logged s)).

Definition getHostPort : Go string := fun s => Ret (HostPort s, s).

(** [new(ClusterConfig)]: a fresh object holding the zero value. *)
Definition newClusterConfig : Go loc :=
  fun s =>
    Ret (length (heap s),
         mkProcess (HostPort s) (Cluster s) (heap s ++ [zeroClusterConfig])
                   (world s) (probed s) (logged s)).

(** The heap with the object at [p] replaced by [c]. *)
Fixpoint heapSet (h : list (ClusterConfig R)) (p : loc) (c : ClusterConfig R)
  : list (ClusterConfig R) :=
  match h, p with
  | [], _ => []
  | _ :: h', O => c :: h'
  | x :: h', S p' => x :: heapSet h' p' c
  end.

(** Reading [*Cluster]: the object the package-level pointer refers to. *)
Definition loadCluster : Go (ClusterConfig R) :=
  fun s =>
    match Cluster s with
    | None => Panic NilDereference
    | Some p =>
        match nth_error (heap s) p with
        | Some c => Ret (c, s)
        | None => Panic NilDereference
        end
    end.

(** An assignment to a field of [*Cluster]. *)
Definition updCluster (f : ClusterConfig R -> ClusterConfig R) : Go unit :=
  fun s =>
    match Cluster s with
    | None => Panic NilDereference
    | Some p =>
        match nth_error (heap s) p with
        | Some c =>
            Ret (tt, mkProcess (HostPort s) (Cluster s) (heapSet (heap s) p (f c))
                               (world s) (probed s) (logged s))
        | None => Panic NilDereference
        end
    end.

Definition setPort (v : string) (c : ClusterConfig R) : ClusterConfig R :=
  mkClusterConfig v (Servers c) (Hash c) (Healthy c).
Definition setServers (v : list string) (c : ClusterConfig R) : ClusterConfig R :=
  mkClusterConfig (Port c) v (Hash c) (Healthy c).
Definition setHash (v : ptr R) (c : ClusterConfig R) : ClusterConfig R :=
  mkClusterConfig (Port c) (Servers c) v (Healthy c).
Definition setHealthy (v : bool) (c : ClusterConfig R) : ClusterConfig R :=
  mkClusterConfig (Port c) (Servers c) (Hash c) v.

(** A call of [GetSingleHashRing]: the network answers and moves on, and
    the address asked is recorded. *)
Definition probe (hostport : string) : Go (ptr JSONRingType * option error) :=
  fun s =>
    let '(answer, w) := GetSingleHashRing hostport (world s) in
    Ret (answer, mkProcess (HostPort s) (Cluster s) (heap s) w
                           (probed s ++ [hostport]) (logged s)).

(** [log.Printf] of an already formatted line. *)
Definition logPrintf (line : string) : Go unit :=
  fun s =>
    Ret (tt, mkProcess (HostPort s) (Cluster s) (heap s) (world s) (probed s)
                       (logged s ++ [line])).

(** A [for ... range] loop that runs to its end. *)
Fixpoint forEach {A : Type} (l : list A) (body : A -> Go unit) : Go unit :=
  match l with
  | [] => ret tt
  | x :: xs => body x ;; forEach xs body
  end.

(** A [for ... range] loop that carries a local variable. *)
Fixpoint forFold {A B : Type} (l : list A) (acc : B) (body : B -> A -> Go B) : Go B :=
  match l with
  | [] => ret acc
  | x :: xs => acc' <- body acc x ;; forFold xs acc' body
  end.

(** ** [GetClusterConfig] (lines 47-103) *)

(** Lines 81-84: the [hashing.Node] built from the fields of a node token. *)
Definition nodeOfFields (fields : list string) : Outcome Node :=
  let fields := if (length fields <? 2)%nat then (fields ++ [""])%list else fields in
  host <- index fields 0 ;;
  inst <- index fields 1 ;;
  ret (mkNode host inst).

(** Lines 79-84 for one node token: the node handed to the hash ring. *)
Definition parseNode (token : string) : Outcome Node :=
  nodeOfFields (strings.Split token ":").

(** [Cluster.Hash.AddNode(n)]: a method call on a [nil] interface panics. *)
Definition hashAddNode (n : Node) : Go unit :=
  c <- loadCluster ;;
  ring <- lift (deref (Hash c)) ;;
  updCluster (setHash (Some (AddNode ring n))).

(** The body of the first loop (lines 78-84). *)
Definition addNodeToken (v : string) : Go unit :=
  let fields := strings.Split v ":" in
  host <- lift (index fields 0) ;;
  c <- loadCluster ;;
  updCluster (setServers (Servers c ++ [host])%list) ;;
  n <- lift (nodeOfFields fields) ;;
  hashAddNode n.

(** The body of the second loop (lines 89-98); [server] is the host name
    that [net.SplitHostPort] returned. *)
Definition probeMember (server : string) (members : list (ptr JSONRingType))
    (srv : string) : Go (list (ptr JSONRingType)) :=
  if srv =? server then ret members else
  c <- loadCluster ;;
  let host := srv ++ ":" ++ Port c in
  '(member, err) <- probe host ;;
  match err with
  | Some e => logPrintf ("Cluster unhealthy: " ++ server ++ ": " ++ e)
  | None => ret tt
  end ;;
  ret (members ++ [member])%list.

(** Lines 77-102: the ring is filled, the other servers are asked, the
    verdict is stored. *)
Definition populate (server : string) (master : ptr JSONRingType)
  : Go (ptr loc * option error) :=
  m <- lift (deref master) ;;
  forEach (Nodes m) addNodeToken ;;
  c <- loadCluster ;;
  members <- forFold (Servers c) [] (probeMember server) ;;
  verdict <- lift (isHealthy master members) ;;
  updCluster (setHealthy verdict) ;;
  cluster <- getCluster ;;
  ret (cluster, None).

(** Lines 67-75, the [switch] on the algorithm of the seed, followed by the
    rest of the function when the algorithm is a known one. *)
Definition selectRing (server : string) (master : ptr JSONRingType)
  : Go (ptr loc * option error) :=
  m <- lift (deref master) ;;
  if Algo m =? "carbon" then
    updCluster (setHash (Some NewCarbonHashRing)) ;;
    populate server master
  else if Algo m =? "jump_fnv1a" then
    updCluster (setHash (Some (NewJumpHashRing (Replicas m)))) ;;
    populate server master
  else
    logPrintf ("Unknown consistent hash algorithm: " ++ Algo m) ;;
    ret (nil_ptr, Some ("Unknown consistent hash algorithm: " ++ Algo m)).

Definition GetClusterConfig (hostport : string) : Go (ptr loc * option error) :=
  cached <- getCluster ;;
  match cached with
  | Some _ => ret (cached, None)
  | None =>
  '(master, err) <- probe hostport ;;
  match err with
  | Some e =>
      logPrintf "Abort: Cannot communicate with initial buckyd daemon." ;;
      ret (nil_ptr, Some e)
  | None =>
  hp <- getHostPort ;;
  let '(server, port, err) := net.SplitHostPort hp in
  match err with
  | Some e =>
      logPrintf ("Abort: Invalid host:port representation: " ++ hostport) ;;
      ret (nil_ptr, Some e)
  | None =>
  p <- newClusterConfig ;;
  setCluster (Some p) ;;
  updCluster (setPort port) ;;
  updCluster (setServers []) ;;
  selectRing server master
  end end end.

(** The method [HostPorts] of a [ClusterConfig] pointer (lines 33-42). *)
Definition HostPorts (c : ptr (ClusterConfig R)) : ptr (list string) :=
  match c with
  | None => nil_ptr
  | Some cfg => Some (map (fun v => v ++ ":" ++ Port cfg) (Servers cfg))
  end.

(** ** Functions used to state the properties of [GetClusterConfig] *)

(** The ring the [switch] of lines 67-75 constructs, if any. *)
Definition newRing (algo : string) (replicas : Z) : option R :=
  if algo =? "carbon" then Some NewCarbonHashRing
  else if algo =? "jump_fnv1a" then Some (NewJumpHashRing replicas)
  else None.

(** The ring after the nodes of the tokens were added, in order. *)
Definition ringOf (tokens : list string) (ring : R) : R :=
  fold_left (fun r v => AddNode r (nodeOf v)) tokens ring.

(** The calls the second loop makes: for every server that is not
    [server], in order, the address asked and the answer received; and the
    network afterwards. *)
Fixpoint probePeers (server port : string) (servers : list string) (w : W)
  : list (string * (ptr JSONRingType * option error)) * W :=
  match servers with
  | [] => ([], w)
  | srv :: rest =>
      if srv =? server then probePeers server port rest w
      else
        let host := srv ++ ":" ++ port in
        let '(answer, w') := GetSingleHashRing host w in
        let '(answers, w'') := probePeers server port rest w' in
        ((host, answer) :: answers, w'')
  end.

(** The lines the second loop logs for these answers. *)
Definition peerLog (server : string)
    (answers : list (string * (ptr JSONRingType * option error))) : list string :=
  flat_map (fun a =>
    match snd (snd a) with
    | Some e => ["Cluster unhealthy: " ++ server ++ ": " ++ e]
    | None => []
    end) answers.

(** What a call of [GetClusterConfig] comes to when nothing is cached, the
    seed answered [m] and left the network in [w1], [HostPort] was split
    into [server] and [port], and [ring0] is the ring constructed for the
    algorithm of [m]. *)
Definition discovered (s : Process) (hostport : string) (m : JSONRingType)
    (w1 : W) (server port : string) (ring0 : R)
  : Outcome (ptr loc * option error * Process) :=
  let servers := map hostOf (Nodes m) in
  let '(answers, w2) := probePeers server port servers w1 in
  v <- isHealthy (Some m) (map (fun a => fst (snd a)) answers) ;;
  ret (Some (length (heap s)), None,
       mkProcess (HostPort s) (Some (length (heap s)))
         (heap s ++ [mkClusterConfig port servers (Some (ringOf (Nodes m) ring0)) v])
         w2 (probed s ++ hostport :: map fst answers)
         (logged s ++ peerLog server answers)).

(** Consecutive calls of [GetClusterConfig]: the results, in order. *)
Fixpoint callAll (hostports : list string) : Go (list (ptr loc * option error)) :=
  match hostports with
  | [] => ret []
  | hp :: rest =>
      r <- GetClusterConfig hp ;;
      rs <- callAll rest ;;
      ret (r :: rs)
  end.

End Discovery.

(** What a caller can observe of the outcome of a call: the values
    returned and the [Cluster], heap and network afterwards, or the panic;
    not the probe trace and the log. *)
Definition outcomeView {W R A : Type} (o : Outcome (A * Process W (R := R)))
  : Outcome (A * ptr loc * list (ClusterConfig R) * W) :=
  match o with
  | Ret (r, s') => Ret (r, Cluster s', heap s', world s')
  | Panic why => Panic why
  end.

(** ** Concrete collaborators, to run the code on examples *)

(** A hash ring that records its kind and the nodes added to it. *)
Inductive RecordedRing : Type :=
| CarbonRing (nodes : list Node)
| JumpRing (replicas : Z) (nodes : list Node).

#[export] Instance HashRing_Recorded : HashRing RecordedRing := {
  NewCarbonHashRing := CarbonRing [];
  NewJumpHashRing := fun r => JumpRing r [];
  AddNode := fun ring n =>
    match ring with
    | CarbonRing ns => CarbonRing (ns ++ [n])
    | JumpRing r ns => JumpRing r (ns ++ [n])
    end
}.

(** What one call of [GetSingleHashRing] returns. *)
Definition Answer : Type := (ptr JSONRingType * option error)%type.

(** A network whose state is the number of calls made so far: the answer
    to a call is a function of that number and of the address. *)
Definition scripted (net : nat -> string -> Answer) (hostport : string) (t : nat)
  : Answer * nat :=
  (net t hostport, S t).

(** A network on which every daemon answers [r]. *)
Definition allAnswer (r : JSONRingType) : nat -> string -> Answer :=
  fun _ _ => (Some r, None).

(** A network on which the daemon at [down] cannot be reached and every
    other daemon answers [r]. *)
Definition oneDown (down : string) (r : JSONRingType) : nat -> string -> Answer :=
  fun _ h => if h =? down then (nil_ptr, Some "connection refused") else (Some r, None).

(** A network on which the first call fails and every later one answers [r]. *)
Definition upAfterFirst (r : JSONRingType) : nat -> string -> Answer :=
  fun t _ =>
    match t with
    | O => (nil_ptr, Some "connection refused")
    | S _ => (Some r, None)
    end.

(** A fresh process: nothing cached, nothing allocated, nothing asked. *)
Definition freshProcess (hostPort : string) : Process nat (R := RecordedRing) :=
  mkProcess hostPort nil_ptr [] 0 [] [].

Definition ringABC : JSONRingType := mkRing "carbon" 1 ["a:0"; "b:0"; "c:0"].
Definition ringAB : JSONRingType := mkRing "carbon" 1 ["a:0"; "b:0"].
Definition ringBA : JSONRingType := mkRing "carbon" 1 ["b:0"; "a:0"].
Definition ringBogus : JSONRingType := mkRing "bogus" 1 ["a:0"; "b:0"].

(** The process after a first discovery on a network where every daemon
    reports [ringABC]. *)
Definition afterDiscovery : Process nat (R := RecordedRing) :=
  Eval vm_compute in
    match GetClusterConfig (scripted (allAnswer ringABC)) "seed:2003"
                           (freshProcess "seed:2003") with
    | Ret (_, s) => s
    | Panic _ => freshProcess ""
    end.

(** * Properties *)

(** ** [strings.Split] and node tokens *)

Lemma Split_cons (s : string) (sep : ascii) :
  exists f fs, strings.Split s sep = f :: fs.
Proof.
  induction s as [|c s IH]; simpl.
  - eauto.
  - destruct (Ascii.eqb c sep); [eauto|].
    destruct IH as (f & fs & ->). eauto.
Qed.

Lemma Split_no_sep (s : string) (sep : ascii) :
  occurs sep s = false -> strings.Split s sep = [s].
Proof.
  induction s as [|c s IH]; simpl; [reflexivity|].
  intros Hocc. apply orb_false_iff in Hocc as [Hc Hs].
  rewrite Hc, (IH Hs). reflexivity.
Qed.

Lemma Split_first_sep (a b : string) (sep : ascii) :
  occurs sep a = false ->
  strings.Split (a ++ String sep b) sep = a :: strings.Split b sep.
Proof.
  induction a as [|c a IH]; simpl.
  - intros _. rewrite Ascii.eqb_refl. reflexivity.
  - intros Hocc. apply orb_false_iff in Hocc as [Hc Ha].
    rewrite Hc, (IH Ha). reflexivity.
Qed.

Lemma index_Split_0 (token : string) :
  index (strings.Split token ":") 0 = Ret (hostOf token).
Proof.
  unfold hostOf, index.
  destruct (Split_cons token ":") as (f & fs & ->). reflexivity.
Qed.

Lemma nodeOfFields_Split (token : string) :
  nodeOfFields (strings.Split token ":") = Ret (nodeOf token).
Proof.
  unfold nodeOfFields, nodeOf, hostOf, instanceOf.
  destruct (Split_cons token ":") as (f & fs & ->).
  destruct fs as [|g gs]; reflexivity.
Qed.

Lemma parseNode_nodeOf (token : string) : parseNode token = Ret (nodeOf token).
Proof. apply nodeOfFields_Split. Qed.

(** ** [isHealthy] *)

Lemma skipn_nth_error {A : Type} (l : list A) (k : nat) (x : A) :
  nth_error l k = Some x -> skipn k l = x :: skipn (S k) l.
Proof.
  revert k. induction l as [|y l IH]; intros [|k] Hk; simpl in Hk; try discriminate.
  - injection Hk as ->. reflexivity.
  - apply (IH k Hk).
Qed.

(** The inner loop from index [k] on, over the [n] remaining indices. *)
Lemma sameOrder_from (la lb : list string) (n k : nat) :
  k + n = length la -> length lb = length la ->
  forRange (seq k n) (fun j =>
    a <- index la j ;;
    b <- index lb j ;;
    if negb (a =? b) then ret (Some false) else ret None)
  = Ret (if list_eq_dec string_dec (skipn k la) (skipn k lb) then None else Some false).
Proof.
  set (body := fun j : nat => _).
  revert k. induction n as [|n IH]; intros k Hk Hlen.
  - simpl. rewrite Nat.add_0_r in Hk.
    rewrite !skipn_all2 by lia.
    destruct (list_eq_dec string_dec [] []); congruence.
  - cbn [seq forRange].
    destruct (nth_error la k) as [x|] eqn:Hx;
      [|apply nth_error_None in Hx; lia].
    destruct (nth_error lb k) as [y|] eqn:Hy;
      [|apply nth_error_None in Hy; lia].
    rewrite (skipn_nth_error la k Hx), (skipn_nth_error lb k Hy).
    unfold body at 1, index. rewrite Hx, Hy.
    cbn [bind ret Monad_Outcome Outcome_bind].
    destruct (x =? y) eqn:Hxy; cbn [negb].
    + apply String.eqb_eq in Hxy. subst y.
      rewrite (IH (S k)) by lia.
      destruct (list_eq_dec string_dec (skipn (S k) la) (skipn (S k) lb)) as [E|E];
        destruct (list_eq_dec string_dec (x :: skipn (S k) la) (x :: skipn (S k) lb)) as [E'|E'];
        try reflexivity; exfalso; [apply E'; congruence | apply E; congruence].
    + apply String.eqb_neq in Hxy.
      destruct (list_eq_dec string_dec (x :: skipn (S k) la) (y :: skipn (S k) lb)) as [E'|E'];
        [congruence | reflexivity].
Qed.

Lemma sameOrder_eq (v m : JSONRingType) :
  length (Nodes v) = length (Nodes m) ->
  sameOrder v m
  = Ret (if list_eq_dec string_dec (Nodes v) (Nodes m) then None else Some false).
Proof.
  intros Hlen. unfold sameOrder.
  rewrite (sameOrder_from (Nodes v) (Nodes m) (length (Nodes v)) 0) by lia.
  reflexivity.
Qed.

Lemma checkMember_agrees (m v : JSONRingType) :
  checkMember (Some m) (Some v) = Ret (if agrees m v then None else Some false).
Proof.
  unfold checkMember, agrees. cbn [deref bind ret Monad_Outcome Outcome_bind].
  destruct (Algo m =? Algo v); cbn [negb andb].
  - destruct (length (Nodes v) =? length (Nodes m))%nat eqn:Hlen; cbn [negb].
    + apply Nat.eqb_eq in Hlen. rewrite (sameOrder_eq v m Hlen).
      destruct (list_eq_dec string_dec (Nodes v) (Nodes m)); reflexivity.
    + apply Nat.eqb_neq in Hlen.
      destruct (list_eq_dec string_dec (Nodes v) (Nodes m)) as [E|E];
        [rewrite E in Hlen; congruence | reflexivity].
  - reflexivity.
Qed.

Lemma forRange_checkMember (m : JSONRingType) (ring : list (ptr JSONRingType)) :
  forRange ring (checkMember (Some m))
  = (b <- verdict m ring ;; ret (if b : bool then None else Some false)).
Proof.
  induction ring as [|[v|] ring IH]; cbn [forRange verdict].
  - reflexivity.
  - rewrite checkMember_agrees. cbn [bind ret Monad_Outcome Outcome_bind].
    destruct (agrees m v); [exact IH | reflexivity].
  - reflexivity.
Qed.

(** [isHealthy] is the count check followed by [verdict]. *)
Lemma isHealthy_verdict (m : JSONRingType) (ring : list (ptr JSONRingType)) :
  isHealthy (Some m) ring
  = if (length (Nodes m) =? length ring)%nat then verdict m ring else Ret false.
Proof.
  unfold isHealthy. cbn [deref bind ret Monad_Outcome Outcome_bind].
  destruct (length (Nodes m) =? length ring)%nat; cbn [negb]; [|reflexivity].
  rewrite forRange_checkMember. cbn [bind ret Monad_Outcome Outcome_bind].
  destruct (verdict m ring) as [[|]|]; reflexivity.
Qed.

(** A present member passes the checks of the loop exactly when it reports
    the algorithm and the node list of [m]. *)
Lemma agrees_true_iff (m v : JSONRingType) :
  agrees m v = true <-> Algo v = Algo m /\ Nodes v = Nodes m.
Proof.
  unfold agrees. rewrite andb_true_iff, String.eqb_eq.
  destruct (list_eq_dec string_dec (Nodes v) (Nodes m)) as [E|E]; split.
  - intros [Ha _]. auto.
  - intros [Ha _]. auto.
  - intros [_ Hf]. discriminate.
  - intros [_ Hn]. contradiction.
Qed.

Lemma nth_error_ext {A : Type} (l l' : list A) :
  (forall j, nth_error l j = nth_error l' j) -> l = l'.
Proof.
  revert l'. induction l as [|x l IH]; intros [|y l'] Hnth.
  - reflexivity.
  - specialize (Hnth 0). discriminate.
  - specialize (Hnth 0). discriminate.
  - pose proof (Hnth 0) as H0. simpl in H0. injection H0 as ->.
    f_equal. apply IH. intros j. apply (Hnth (S j)).
Qed.

Lemma verdict_all_agree (m : JSONRingType) (vs : list JSONRingType) :
  Forall (fun v => agrees m v = true) vs -> verdict m (map Some vs) = Ret true.
Proof.
  induction 1 as [|v vs Hv _ IH]; simpl; [reflexivity|].
  rewrite Hv. exact IH.
Qed.

Lemma verdict_true_agrees (m : JSONRingType) (ring : list (ptr JSONRingType)) :
  verdict m ring = Ret true -> forall v, In (Some v) ring -> agrees m v = true.
Proof.
  induction ring as [|[u|] ring IH]; simpl; intros Htrue v Hin.
  - contradiction.
  - destruct (agrees m u) eqn:Hu; [|discriminate].
    destruct Hin as [[= ->]|Hin]; [exact Hu | apply IH; assumption].
  - discriminate.
Qed.

Lemma verdict_disagree (m v : JSONRingType) (before : list JSONRingType)
    (rest : list (ptr JSONRingType)) :
  agrees m v = false ->
  verdict m (map Some before ++ Some v :: rest) = Ret false.
Proof.
  intros Hv. induction before as [|b before IH]; simpl.
  - rewrite Hv. reflexivity.
  - destruct (agrees m b); [exact IH | reflexivity].
Qed.

Lemma verdict_absent (m : JSONRingType) (before : list JSONRingType)
    (rest : list (ptr JSONRingType)) :
  Forall (fun v => agrees m v = true) before ->
  verdict m (map Some before ++ None :: rest) = Panic NilDereference.
Proof.
  induction 1 as [|b before Hb _ IH]; simpl; [reflexivity|].
  rewrite Hb. exact IH.
Qed.

(** When the counts match and the members examined before an absent one
    agree with the seed, [isHealthy] dereferences the [nil] member. *)
Lemma isHealthy_absent_member (m : JSONRingType) (before : list JSONRingType)
    (rest : list (ptr JSONRingType)) :
  length (Nodes m) = length (map Some before ++ None :: rest) ->
  Forall (fun v => agrees m v = true) before ->
  isHealthy (Some m) (map Some before ++ None :: rest) = Panic NilDereference.
Proof.
  intros Hlen Hbefore. rewrite isHealthy_verdict.
  destruct (_ =? _)%nat eqn:Hcount;
    [|apply Nat.eqb_neq in Hcount; exfalso; apply Hcount; exact Hlen].
  apply verdict_absent; assumption.
Qed.

Lemma verdict_total (m : JSONRingType) (ring : list (ptr JSONRingType)) :
  Forall (fun v => v <> None) ring -> exists b, verdict m ring = Ret b.
Proof.
  induction 1 as [|[v|] ring Hv _ IH]; simpl.
  - eauto.
  - destruct (agrees m v); eauto.
  - contradiction.
Qed.

(** [isHealthy] does not panic when the seed and every member are present. *)
Lemma isHealthy_total (m : JSONRingType) (ring : list (ptr JSONRingType)) :
  Forall (fun v => v <> None) ring -> exists b, isHealthy (Some m) ring = Ret b.
Proof.
  intros Hring. rewrite isHealthy_verdict.
  destruct (_ =? _)%nat; [apply verdict_total; assumption | eauto].
Qed.

Lemma agrees_refl (m : JSONRingType) : agrees m m = true.
Proof. apply agrees_true_iff. split; reflexivity. Qed.


Lemma verdict_sameButReplicas (m m' : JSONRingType) (ring ring' : list (ptr JSONRingType)) :
  sameButReplicas m m' -> Forall2 sameButReplicasPtr ring ring' ->
  verdict m ring = verdict m' ring'.
Proof.
  intros [Ha Hn]. induction 1 as [|v v' ring ring' Hv _ IH]; simpl; [reflexivity|].
  destruct v as [v|], v' as [v'|]; simpl in Hv; try contradiction; [|reflexivity].
  destruct Hv as [Hva Hvn].
  unfold agrees. rewrite <- Ha, <- Hn, <- Hva, <- Hvn, IH. reflexivity.
Qed.

(** C9 fails as stated: with two colons in the token, the instance handed
    to the ring is the second field only, not everything after the first
    colon. *)
Lemma parseNode_two_colons :
  parseNode "h:1:2" = Ret (mkNode "h" "1") /\
  parseNode "h:1:2" <> Ret (mkNode "h" "1:2").
Proof. split; [reflexivity | discriminate]. Qed.

(** C9, amended: a token without a colon gives the node named by the whole
    token, with the empty instance; a token [name:rest] gives [name] and, as
    instance, the part of [rest] before its first colon, which is all of
    [rest] when [rest] has no colon.  In particular ["host1"] gives
    [Node{"host1", ""}] and ["host1:5"] gives [Node{"host1", "5"}]. *)
Theorem parseNode_fields (token name rest : string) :
  (occurs ":" token = false -> parseNode token = Ret (mkNode token "")) /\
  (occurs ":" name = false ->
   parseNode (name ++ ":" ++ rest) = Ret (mkNode name (hd "" (strings.Split rest ":")))) /\
  (occurs ":" name = false -> occurs ":" rest = false ->
   parseNode (name ++ ":" ++ rest) = Ret (mkNode name rest)) /\
  parseNode "host1" = Ret (mkNode "host1" "") /\
  parseNode "host1:5" = Ret (mkNode "host1" "5").
Proof.
  assert (Hsplit : occurs ":" name = false ->
    parseNode (name ++ ":" ++ rest) = Ret (mkNode name (hd "" (strings.Split rest ":")))).
  { intros Hname. unfold parseNode.
    change (name ++ ":" ++ rest) with (name ++ String ":" rest).
    rewrite Split_first_sep by exact Hname.
    destruct (Split_cons rest ":") as (f & fs & ->). reflexivity. }
  repeat split.
  - intros Htoken. unfold parseNode. rewrite Split_no_sep by exact Htoken. reflexivity.
  - exact Hsplit.
  - intros Hname Hrest. rewrite (Hsplit Hname), Split_no_sep by exact Hrest. reflexivity.
Qed.

Lemma parseNode_fields_witness :
  parseNode "host1" = Ret (mkNode "host1" "") /\
  parseNode "host1:5:x" = Ret (mkNode "host1" "5") /\
  parseNode "host1:5" = Ret (mkNode "host1" "5").
Proof.
  destruct (parseNode_fields "host1" "host1" "5:x") as (Hno & Hcut & _).
  destruct (parseNode_fields "host1" "host1" "5") as (_ & _ & Hall & _).
  split; [apply Hno; reflexivity|].
  split; [apply Hcut; reflexivity|].
  apply Hall; reflexivity.
Defined.

(** C7: a present member with the algorithm and the node count of the seed
    whose node list differs from the seed's at some index makes [isHealthy]
    return false, whatever follows it in the ring, the members examined
    before it being present; and wherever it stands in the ring, [isHealthy]
    does not return true.  Lists are compared position by position: the
    same members in another order are a mismatch. *)
Theorem isHealthy_positional_mismatch (m v : JSONRingType)
    (before : list JSONRingType) (rest : list (ptr JSONRingType)) (j : nat) :
  Algo v = Algo m ->
  length (Nodes v) = length (Nodes m) ->
  nth_error (Nodes v) j <> nth_error (Nodes m) j ->
  isHealthy (Some m) (map Some before ++ Some v :: rest) = Ret false /\
  forall ring, In (Some v) ring -> isHealthy (Some m) ring <> Ret true.
Proof.
  intros _ _ Hj.
  assert (Hv : agrees m v = false).
  { destruct (agrees m v) eqn:Hv; [|reflexivity].
    apply agrees_true_iff in Hv as [_ Hn]. rewrite Hn in Hj. contradiction. }
  split.
  - rewrite isHealthy_verdict.
    destruct (length (Nodes m) =? _)%nat; [|reflexivity].
    apply verdict_disagree. exact Hv.
  - intros ring Hin. rewrite isHealthy_verdict.
    destruct (length (Nodes m) =? _)%nat; [|discriminate].
    intros Htrue. rewrite (verdict_true_agrees _ _ Htrue _ Hin) in Hv. discriminate.
Qed.

Lemma isHealthy_positional_mismatch_witness :
  isHealthy (Some ringAB) [Some ringBA] = Ret false /\
  isHealthy (Some ringAB) [Some ringAB; Some ringBA] = Ret false /\
  isHealthy (Some ringAB) [nil_ptr; Some ringBA] <> Ret true.
Proof.
  split; [|split].
  - apply (@isHealthy_positional_mismatch ringAB ringBA [] [] 0);
      [reflexivity | reflexivity | discriminate].
  - apply (@isHealthy_positional_mismatch ringAB ringBA [ringAB] [] 0);
      [reflexivity | reflexivity | discriminate].
  - apply (@isHealthy_positional_mismatch ringAB ringBA [] [] 0);
      [reflexivity | reflexivity | discriminate |].
    right. left. reflexivity.
Defined.

(** C8: the verdict of [isHealthy] does not depend on replica counts: on
    two inputs that differ at most in the [Replicas] fields of the seed and
    of the members, it has the same outcome. *)
Theorem isHealthy_ignores_replicas (master master' : ptr JSONRingType)
    (ring ring' : list (ptr JSONRingType)) :
  sameButReplicasPtr master master' ->
  Forall2 sameButReplicasPtr ring ring' ->
  isHealthy master ring = isHealthy master' ring'.
Proof.
  intros Hm Hring.
  destruct master as [m|], master' as [m'|]; simpl in Hm; try contradiction;
    [|reflexivity].
  rewrite !isHealthy_verdict.
  rewrite (Forall2_length Hring).
  destruct Hm as [Ha Hn]. rewrite Hn.
  destruct (length (Nodes m') =? length ring')%nat; [|reflexivity].
  apply verdict_sameButReplicas; [split; assumption | assumption].
Qed.

Lemma isHealthy_ignores_replicas_witness :
  isHealthy (Some (mkRing "carbon" 1 ["a:0"])) [Some (mkRing "carbon" 2 ["a:0"])]
  = isHealthy (Some (mkRing "carbon" 100 ["a:0"])) [Some (mkRing "carbon" 7 ["a:0"])].
Proof.
  apply isHealthy_ignores_replicas.
  - split; reflexivity.
  - constructor; [split; reflexivity | constructor].
Defined.

(** ** [GetClusterConfig]: the heap and the steps of the code *)

Section DiscoveryFacts.

Variable W : Type.
Context {R : Type} `{HashRing R}.
Variable GetSingleHashRing : string -> W -> Answer * W.

Lemma nth_error_heapSet (h : list (ClusterConfig R)) (p : loc) (c c0 : ClusterConfig R) :
  nth_error h p = Some c0 -> nth_error (heapSet h p c) p = Some c.
Proof.
  revert p. induction h as [|x h IH]; intros [|p] Hp; simpl in *; try discriminate.
  - reflexivity.
  - apply IH; assumption.
Qed.

Lemma heapSet_heapSet (h : list (ClusterConfig R)) (p : loc) (c c' : ClusterConfig R) :
  heapSet (heapSet h p c) p c' = heapSet h p c'.
Proof.
  revert p. induction h as [|x h IH]; intros [|p]; simpl; try reflexivity.
  rewrite IH. reflexivity.
Qed.

Lemma heapSet_same (h : list (ClusterConfig R)) (p : loc) (c : ClusterConfig R) :
  nth_error h p = Some c -> heapSet h p c = h.
Proof.
  revert p. induction h as [|x h IH]; intros [|p] Hp; simpl in *; try discriminate.
  - injection Hp as ->. reflexivity.
  - rewrite IH by assumption. reflexivity.
Qed.

Lemma nth_error_last (h : list (ClusterConfig R)) (x : ClusterConfig R) :
  nth_error (h ++ [x]) (length h) = Some x.
Proof. induction h as [|y h IH]; simpl; [reflexivity | exact IH]. Qed.

Lemma heapSet_last (h : list (ClusterConfig R)) (x c : ClusterConfig R) :
  heapSet (h ++ [x]) (length h) c = (h ++ [c])%list.
Proof. induction h as [|y h IH]; simpl; [reflexivity | rewrite IH; reflexivity]. Qed.

(** ** The steps of [GetClusterConfig] *)

Lemma updCluster_run (f : ClusterConfig R -> ClusterConfig R) hp p h (w : W) pr lg c :
  nth_error h p = Some c ->
  updCluster f (mkProcess hp (Some p) h w pr lg)
  = Ret (tt, mkProcess hp (Some p) (heapSet h p (f c)) w pr lg).
Proof. intros Hp. unfold updCluster. simpl. rewrite Hp. reflexivity. Qed.

Lemma loadCluster_run hp p h (w : W) pr lg (c : ClusterConfig R) :
  nth_error h p = Some c ->
  loadCluster (mkProcess hp (Some p) h w pr lg)
  = Ret (c, mkProcess hp (Some p) h w pr lg).
Proof. intros Hp. unfold loadCluster. simpl. rewrite Hp. reflexivity. Qed.

Lemma Go_bind_run {A B : Type} (c : Go W (R := R) A) (k : A -> Go W B) s a s' :
  c s = Ret (a, s') -> (x <- c ;; k x) s = k a s'.
Proof. intros Hc. cbn. unfold Go_bind. rewrite Hc. reflexivity. Qed.

Lemma lift_run {A : Type} (a : A) (s : Process W (R := R)) : lift (Ret a) s = Ret (a, s).
Proof. reflexivity. Qed.

Lemma getCluster_run hp (c : ptr loc) (h : list (ClusterConfig R)) (w : W) pr lg :
  getCluster (mkProcess hp c h w pr lg) = Ret (c, mkProcess hp c h w pr lg).
Proof. reflexivity. Qed.

Lemma getHostPort_run hp (c : ptr loc) (h : list (ClusterConfig R)) (w : W) pr lg :
  getHostPort (mkProcess hp c h w pr lg) = Ret (hp, mkProcess hp c h w pr lg).
Proof. reflexivity. Qed.

Lemma setCluster_run c' hp (c : ptr loc) (h : list (ClusterConfig R)) (w : W) pr lg :
  setCluster c' (mkProcess hp c h w pr lg) = Ret (tt, mkProcess hp c' h w pr lg).
Proof. reflexivity. Qed.

Lemma newClusterConfig_run hp (c : ptr loc) (h : list (ClusterConfig R)) (w : W) pr lg :
  newClusterConfig (mkProcess hp c h w pr lg)
  = Ret (length h, mkProcess hp c (h ++ [zeroClusterConfig]) w pr lg).
Proof. reflexivity. Qed.

Lemma probe_run hostport hp (c : ptr loc) (h : list (ClusterConfig R)) w pr lg answer w' :
  GetSingleHashRing hostport w = (answer, w') ->
  probe GetSingleHashRing hostport (mkProcess hp c h w pr lg)
  = Ret (answer, mkProcess hp c h w' (pr ++ [hostport]) lg).
Proof. intros Hw. unfold probe. simpl. rewrite Hw. reflexivity. Qed.

Lemma logPrintf_run line hp (c : ptr loc) (h : list (ClusterConfig R)) (w : W) pr lg :
  logPrintf line (mkProcess hp c h w pr lg)
  = Ret (tt, mkProcess hp c h w pr (lg ++ [line])).
Proof. reflexivity. Qed.

(** The side condition of an access to [*Cluster]. *)
Ltac heap_cell :=
  first [ eassumption
        | apply nth_error_last
        | eapply nth_error_heapSet; eassumption ].

(** The effect of the primitive step [c] in a goal [c s = Ret (_, _)]. *)
Ltac run_prim :=
  lazymatch goal with
  | |- lift _ _ = _ => apply lift_run
  | |- getCluster _ = _ => apply getCluster_run
  | |- getHostPort _ = _ => apply getHostPort_run
  | |- setCluster _ _ = _ => apply setCluster_run
  | |- newClusterConfig _ = _ => apply newClusterConfig_run
  | |- logPrintf _ _ = _ => apply logPrintf_run
  | |- probe _ _ _ = _ => apply probe_run; eassumption
  | |- loadCluster _ = _ => apply loadCluster_run; heap_cell
  | |- updCluster _ _ = _ => apply updCluster_run; heap_cell
  end.

(** Runs the first step of [(x <- c ;; k x) s]. *)
Ltac go_step := erewrite Go_bind_run by run_prim; cbv beta iota.

Lemma addNodeToken_run v hp p h (w : W) pr lg (c : ClusterConfig R) r :
  nth_error h p = Some c -> Hash c = Some r ->
  addNodeToken v (mkProcess hp (Some p) h w pr lg)
  = Ret (tt, mkProcess hp (Some p)
               (heapSet h p (mkClusterConfig (Port c) (Servers c ++ [hostOf v])
                                             (Some (AddNode r (nodeOf v))) (Healthy c)))
               w pr lg).
Proof.
  intros Hp Hr. unfold addNodeToken.
  rewrite index_Split_0, nodeOfFields_Split.
  go_step.
  go_step.
  go_step.
  go_step.
  unfold hashAddNode.
  go_step.
  cbn [setServers Hash]. rewrite Hr.
  go_step.
  erewrite updCluster_run by (eapply nth_error_heapSet; eassumption).
  rewrite heapSet_heapSet. reflexivity.
Qed.

Lemma addNodes_run tokens : forall hp p h (w : W) pr lg (c : ClusterConfig R) r,
  nth_error h p = Some c -> Hash c = Some r ->
  forEach tokens (@addNodeToken W R _) (mkProcess hp (Some p) h w pr lg)
  = Ret (tt, mkProcess hp (Some p)
               (heapSet h p (mkClusterConfig (Port c) (Servers c ++ map hostOf tokens)
                                             (Some (ringOf tokens r)) (Healthy c)))
               w pr lg).
Proof.
  induction tokens as [|v tokens IH]; intros hp p h w pr lg c r Hp Hr.
  - simpl. rewrite app_nil_r. unfold ringOf. simpl. rewrite <- Hr.
    destruct c; simpl. rewrite heapSet_same by assumption. reflexivity.
  - cbn [forEach].
    erewrite Go_bind_run by (eapply addNodeToken_run; eassumption).
    erewrite IH; [|eapply nth_error_heapSet; eassumption | reflexivity].
    rewrite heapSet_heapSet. cbn [Port Servers Healthy map].
    rewrite <- app_assoc. reflexivity.
Qed.

Lemma probeMember_run server acc srv hp p h w pr lg (c : ClusterConfig R) member err w1 :
  (srv =? server) = false ->
  nth_error h p = Some c ->
  GetSingleHashRing (srv ++ ":" ++ Port c) w = (member, err, w1) ->
  probeMember GetSingleHashRing server acc srv (mkProcess hp (Some p) h w pr lg)
  = Ret ((acc ++ [member])%list,
         mkProcess hp (Some p) h w1 (pr ++ [srv ++ ":" ++ Port c])
           (lg ++ match err with
                  | Some e => ["Cluster unhealthy: " ++ server ++ ": " ++ e]
                  | None => []
                  end)).
Proof.
  intros Hsrv Hp Hw. unfold probeMember. rewrite Hsrv.
  go_step.
  go_step.
  destruct err as [e|].
  - go_step. reflexivity.
  - erewrite Go_bind_run by reflexivity. rewrite app_nil_r. reflexivity.
Qed.

Lemma probeMembers_run server servers : forall acc hp p h w pr lg (c : ClusterConfig R),
  nth_error h p = Some c ->
  forFold servers acc (probeMember GetSingleHashRing server) (mkProcess hp (Some p) h w pr lg)
  = let '(answers, w') := probePeers GetSingleHashRing server (Port c) servers w in
    Ret ((acc ++ map (fun a => fst (snd a)) answers)%list,
         mkProcess hp (Some p) h w' (pr ++ map fst answers) (lg ++ peerLog server answers)).
Proof.
  induction servers as [|srv servers IH]; intros acc hp p h w pr lg c Hp.
  - simpl. rewrite !app_nil_r. reflexivity.
  - cbn [forFold probePeers].
    destruct (srv =? server) eqn:Hsrv.
    + unfold probeMember at 1. rewrite Hsrv.
      erewrite Go_bind_run by reflexivity. apply IH; assumption.
    + destruct (GetSingleHashRing (srv ++ ":" ++ Port c) w) as [[member err] w1] eqn:Hw.
      erewrite Go_bind_run by (apply probeMember_run; eassumption).
      rewrite (IH _ _ _ _ _ _ _ c Hp).
      destruct (probePeers GetSingleHashRing server (Port c) servers w1) as [answers w2].
      unfold peerLog. cbn [map flat_map fst snd].
      rewrite <- !app_assoc. reflexivity.
Qed.

Lemma populate_run server m hp p h w pr lg (c : ClusterConfig R) r :
  nth_error h p = Some c -> Hash c = Some r ->
  populate GetSingleHashRing server (Some m) (mkProcess hp (Some p) h w pr lg)
  = let servers := (Servers c ++ map hostOf (Nodes m))%list in
    let '(answers, w') := probePeers GetSingleHashRing server (Port c) servers w in
    v <- isHealthy (Some m) (map (fun a => fst (snd a)) answers) ;;
    ret (Some p, None,
         mkProcess hp (Some p)
           (heapSet h p (mkClusterConfig (Port c) servers (Some (ringOf (Nodes m) r)) v))
           w' (pr ++ map fst answers) (lg ++ peerLog server answers)).
Proof.
  intros Hp Hr. cbn zeta.
  destruct (probePeers GetSingleHashRing server (Port c)
              (Servers c ++ map hostOf (Nodes m)) w) as [answers w'] eqn:Hpeers.
  unfold populate.
  go_step.
  erewrite Go_bind_run by (eapply addNodes_run; eassumption).
  go_step.
  cbn [Servers].
  erewrite Go_bind_run
    by (erewrite probeMembers_run by (eapply nth_error_heapSet; eassumption);
        cbn [Port]; rewrite Hpeers; reflexivity).
  cbn [app].
  destruct (isHealthy (Some m) (map (fun a => fst (snd a)) answers)) as [v|why];
    [|reflexivity].
  go_step.
  go_step.
  rewrite heapSet_heapSet. reflexivity.
Qed.

(** Up to the [switch]: nothing cached, the seed answered without error and
    [HostPort] is well formed.  A fresh object is allocated and published
    in [Cluster] before the algorithm is looked at. *)
Lemma GetClusterConfig_allocates hostport hp (h : list (ClusterConfig R)) w pr lg
    master w1 server port :
  GetSingleHashRing hostport w = (master, None, w1) ->
  net.SplitHostPort hp = (server, port, None) ->
  GetClusterConfig GetSingleHashRing hostport (mkProcess hp None h w pr lg)
  = selectRing GetSingleHashRing server master
      (mkProcess hp (Some (length h)) (h ++ [mkClusterConfig port [] nil_ptr false])
                 w1 (pr ++ [hostport]) lg).
Proof.
  intros Hw Hsplit. unfold GetClusterConfig.
  go_step.
  go_step.
  go_step.
  rewrite Hsplit. cbv beta iota.
  go_step.
  go_step.
  go_step.
  rewrite heapSet_last.
  go_step.
  rewrite heapSet_last. reflexivity.
Qed.

Lemma selectRing_known server m ring0 hp (h : list (ClusterConfig R)) w pr lg port :
  newRing (Algo m) (Replicas m) = Some ring0 ->
  selectRing GetSingleHashRing server (Some m)
    (mkProcess hp (Some (length h)) (h ++ [mkClusterConfig port [] nil_ptr false]) w pr lg)
  = let servers := map hostOf (Nodes m) in
    let '(answers, w2) := probePeers GetSingleHashRing server port servers w in
    v <- isHealthy (Some m) (map (fun a => fst (snd a)) answers) ;;
    ret (Some (length h), None,
         mkProcess hp (Some (length h))
           (h ++ [mkClusterConfig port servers (Some (ringOf (Nodes m) ring0)) v])
           w2 (pr ++ map fst answers) (lg ++ peerLog server answers)).
Proof.
  intros Hring.
  assert (Hpop : forall r,
    (updCluster (setHash (Some r)) ;; populate GetSingleHashRing server (Some m))
      (mkProcess hp (Some (length h)) (h ++ [mkClusterConfig port [] nil_ptr false])
                 w pr lg)
    = (let servers := map hostOf (Nodes m) in
       let '(answers, w2) := probePeers GetSingleHashRing server port servers w in
       v <- isHealthy (Some m) (map (fun a => fst (snd a)) answers) ;;
       ret (Some (length h), None,
            mkProcess hp (Some (length h))
              (h ++ [mkClusterConfig port servers (Some (ringOf (Nodes m) r)) v])
              w2 (pr ++ map fst answers) (lg ++ peerLog server answers)))).
  { intros r.
    go_step.
    rewrite heapSet_last.
    erewrite populate_run; [|apply nth_error_last | reflexivity].
    cbn [setHash Port Servers Hash Healthy app]. cbn zeta.
    destruct (probePeers GetSingleHashRing server port (map hostOf (Nodes m)) w)
      as [answers w2].
    destruct (isHealthy (Some m) (map (fun a => fst (snd a)) answers)) as [v|why];
      [|reflexivity].
    cbn [bind ret Monad_Outcome Outcome_bind].
    rewrite heapSet_last. reflexivity. }
  unfold selectRing. go_step.
  unfold newRing in Hring.
  destruct (Algo m =? "carbon").
  - injection Hring as <-. apply Hpop.
  - destruct (Algo m =? "jump_fnv1a"); [|discriminate].
    injection Hring as <-. apply Hpop.
Qed.

Lemma selectRing_unknown server m (s : Process W) :
  newRing (Algo m) (Replicas m) = None ->
  selectRing GetSingleHashRing server (Some m) s
  = Ret (nil_ptr, Some ("Unknown consistent hash algorithm: " ++ Algo m),
         mkProcess (HostPort s) (Cluster s) (heap s) (world s) (probed s)
           (logged s ++ ["Unknown consistent hash algorithm: " ++ Algo m])).
Proof.
  intros Hring. unfold selectRing. go_step.
  unfold newRing in Hring.
  destruct (Algo m =? "carbon"); [discriminate|].
  destruct (Algo m =? "jump_fnv1a"); [discriminate|].
  reflexivity.
Qed.

(** A discovery that is not cut short by an error comes to [discovered]. *)
Lemma GetClusterConfig_discovers (s : Process W) hostport m w1 server port ring0 :
  Cluster s = None ->
  GetSingleHashRing hostport (world s) = (Some m, None, w1) ->
  net.SplitHostPort (HostPort s) = (server, port, None) ->
  newRing (Algo m) (Replicas m) = Some ring0 ->
  GetClusterConfig GetSingleHashRing hostport s
  = discovered GetSingleHashRing s hostport m w1 server port ring0.
Proof.
  destruct s as [hp c h w pr lg]. cbn [Cluster world HostPort].
  intros -> Hw Hsplit Hring.
  unfold nil_ptr in *.
  erewrite GetClusterConfig_allocates by eassumption.
  erewrite selectRing_known by eassumption.
  unfold discovered. cbn [heap HostPort probed logged]. cbn zeta.
  destruct (probePeers GetSingleHashRing server port (map hostOf (Nodes m)) w1)
    as [answers w2].
  rewrite <- app_assoc. reflexivity.
Qed.

Lemma GetClusterConfig_cached (s : Process W) hostport p :
  Cluster s = Some p ->
  GetClusterConfig GetSingleHashRing hostport s = Ret (Some p, None, s).
Proof.
  destruct s as [hp c h w pr lg]. cbn [Cluster]. intros ->.
  unfold GetClusterConfig.
  go_step. reflexivity.
Qed.

Lemma GetClusterConfig_seed_fails hostport hp (h : list (ClusterConfig R)) w pr lg
    master e w1 :
  GetSingleHashRing hostport w = (master, Some e, w1) ->
  GetClusterConfig GetSingleHashRing hostport (mkProcess hp None h w pr lg)
  = Ret (nil_ptr, Some e,
         mkProcess hp None h w1 (pr ++ [hostport])
           (lg ++ ["Abort: Cannot communicate with initial buckyd daemon."])).
Proof.
  intros Hw. unfold GetClusterConfig.
  go_step.
  go_step.
  go_step. reflexivity.
Qed.

Lemma GetClusterConfig_bad_HostPort hostport hp (h : list (ClusterConfig R)) w pr lg
    master w1 server port e :
  GetSingleHashRing hostport w = (master, None, w1) ->
  net.SplitHostPort hp = (server, port, Some e) ->
  GetClusterConfig GetSingleHashRing hostport (mkProcess hp None h w pr lg)
  = Ret (nil_ptr, Some e,
         mkProcess hp None h w1 (pr ++ [hostport])
           (lg ++ ["Abort: Invalid host:port representation: " ++ hostport])).
Proof.
  intros Hw Hsplit. unfold GetClusterConfig.
  go_step.
  go_step.
  go_step.
  rewrite Hsplit. cbv beta iota.
  go_step. reflexivity.
Qed.

(** Whenever [GetClusterConfig] returns a pointer that is not [nil], it is
    the pointer stored in [Cluster]. *)
Lemma GetClusterConfig_returns_Cluster (s s' : Process W) hostport p e :
  GetClusterConfig GetSingleHashRing hostport s = Ret (Some p, e, s') ->
  Cluster s' = Some p.
Proof.
  destruct s as [hp [c|] h w pr lg].
  - rewrite (GetClusterConfig_cached (mkProcess hp (Some c) h w pr lg) hostport
               (p := c) eq_refl).
    intros [= <- <- <-]. reflexivity.
  - destruct (GetSingleHashRing hostport w) as [[master [err|]] w1] eqn:Hw.
    + erewrite GetClusterConfig_seed_fails by eassumption. discriminate.
    + destruct (net.SplitHostPort hp) as [[server port] [err|]] eqn:Hsplit.
      * erewrite GetClusterConfig_bad_HostPort by eassumption. discriminate.
      * erewrite (@GetClusterConfig_allocates hostport hp h w pr lg) by eassumption.
        destruct master as [m|]; [|discriminate].
        destruct (newRing (Algo m) (Replicas m)) as [ring0|] eqn:Hring.
        -- erewrite selectRing_known by eassumption. cbn zeta.
           destruct (probePeers _ _ _ _ _) as [answers w2].
           destruct (isHealthy _ _) as [v|why]; [|discriminate].
           intros [= <- <- <-]. reflexivity.
        -- rewrite selectRing_unknown by assumption. discriminate.
Qed.

(** On a network where every daemon gives the same answer, the second loop
    collects that answer once for every server that is not [server]. *)
Lemma probePeers_same_answer (answer : Answer) server port servers :
  (forall h w, fst (GetSingleHashRing h w) = answer) ->
  forall w, map snd (fst (probePeers GetSingleHashRing server port servers w))
            = map (fun _ => answer) (filter (fun srv => negb (srv =? server)) servers).
Proof.
  intros Hsame. induction servers as [|srv servers IH]; intros w; [reflexivity|].
  cbn [probePeers filter]. destruct (srv =? server); cbn [negb]; [apply IH|].
  pose proof (Hsame (srv ++ ":" ++ port) w) as Hw.
  destruct (GetSingleHashRing (srv ++ ":" ++ port) w) as [a w1].
  specialize (IH w1).
  destruct (probePeers GetSingleHashRing server port servers w1) as [answers w2].
  cbn [fst snd map] in *. rewrite IH, Hw. reflexivity.
Qed.

Lemma filter_none_excluded (server : string) (servers : list string) :
  ~ In server servers ->
  filter (fun srv => negb (srv =? server)) servers = servers.
Proof.
  induction servers as [|srv servers IH]; intros Hin; [reflexivity|].
  cbn [filter]. destruct (String.eqb_spec srv server) as [->|_].
  - exfalso. apply Hin. left. reflexivity.
  - cbn [negb]. rewrite IH; [reflexivity|]. intros Hs. apply Hin. right. exact Hs.
Qed.

(** ** The claims about [GetClusterConfig] *)

(** C1: a seed that reports an algorithm other than ["carbon"] and
    ["jump_fnv1a"] makes [GetClusterConfig] return [nil] and an error that
    names the algorithm; but [Cluster] was assigned before the [switch], so
    a [ClusterConfig] with the port only, no server and no ring stays in the
    cache, and every later call returns it without an error. *)
Theorem unknown_algorithm_leaves_partial_config (s : Process W)
    hostport m w1 server port :
  Cluster s = None ->
  GetSingleHashRing hostport (world s) = (Some m, None, w1) ->
  net.SplitHostPort (HostPort s) = (server, port, None) ->
  Algo m <> "carbon" -> Algo m <> "jump_fnv1a" ->
  exists s1,
    GetClusterConfig GetSingleHashRing hostport s
    = Ret (nil_ptr, Some ("Unknown consistent hash algorithm: " ++ Algo m), s1) /\
    Cluster s1 = Some (length (heap s)) /\
    nth_error (heap s1) (length (heap s)) = Some (mkClusterConfig port [] nil_ptr false) /\
    forall hostport2,
      GetClusterConfig GetSingleHashRing hostport2 s1
      = Ret (Some (length (heap s)), None, s1).
Proof.
  destruct s as [hp c h w pr lg]. cbn [Cluster world HostPort heap].
  intros -> Hw Hsplit Hcarbon Hjump.
  erewrite GetClusterConfig_allocates by eassumption.
  rewrite selectRing_unknown.
  - eexists. split; [reflexivity|]. cbn [Cluster heap].
    split; [reflexivity|]. split; [apply nth_error_last|].
    intros hostport2. apply GetClusterConfig_cached. reflexivity.
  - unfold newRing.
    apply String.eqb_neq in Hcarbon, Hjump. rewrite Hcarbon, Hjump. reflexivity.
Qed.

(** X15: when the number of members equals the number of nodes of the
    seed and every member is present and passes the algorithm, node-count
    and node-order checks, [isHealthy] returns true; and when [HostPort]
    holds the address the call is given, every daemon reports the same
    ring [m] of a known algorithm and the host of that address is none of
    the servers of [m], so that every server is asked, [GetClusterConfig]
    publishes the servers of [m] in order with [Healthy] set. *)
Theorem healthy_when_counts_match_and_all_agree :
  (forall (m : JSONRingType) (vs : list JSONRingType),
      length (Nodes m) = length vs ->
      Forall (fun v => Algo v = Algo m /\ length (Nodes v) = length (Nodes m) /\
                       forall j, nth_error (Nodes v) j = nth_error (Nodes m) j) vs ->
      isHealthy (Some m) (map Some vs) = Ret true) /\
  (forall (s : Process W) hostport m server port ring0,
      Cluster s = None ->
      HostPort s = hostport ->
      net.SplitHostPort hostport = (server, port, None) ->
      (forall h w, fst (GetSingleHashRing h w) = (Some m, None)) ->
      newRing (Algo m) (Replicas m) = Some ring0 ->
      ~ In server (map hostOf (Nodes m)) ->
      exists s',
        GetClusterConfig GetSingleHashRing hostport s
        = Ret (Some (length (heap s)), None, s') /\
        Cluster s' = Some (length (heap s)) /\
        nth_error (heap s') (length (heap s))
        = Some (mkClusterConfig port (map hostOf (Nodes m))
                                (Some (ringOf (Nodes m) ring0)) true)).
Proof.
  split.
  - intros m vs Hcount Hall. rewrite isHealthy_verdict, length_map.
    apply Nat.eqb_eq in Hcount. rewrite Hcount.
    apply verdict_all_agree.
    eapply Forall_impl; [|exact Hall].
    intros v (Ha & _ & Hn). apply agrees_true_iff.
    split; [exact Ha | apply nth_error_ext; exact Hn].
  - intros s hostport m server port ring0 Hnil Hhp Hsplit Hsame Hring Hseed.
    pose proof (Hsame hostport (world s)) as Hw.
    destruct (GetSingleHashRing hostport (world s)) as [a w1] eqn:Hseedw.
    cbn [fst] in Hw. subst a.
    rewrite <- Hhp in Hsplit.
    erewrite GetClusterConfig_discovers by eassumption.
    unfold discovered.
    pose proof (probePeers_same_answer server port (map hostOf (Nodes m)) Hsame w1)
      as Hanswers.
    rewrite filter_none_excluded in Hanswers by exact Hseed.
    destruct (probePeers GetSingleHashRing server port (map hostOf (Nodes m)) w1)
      as [answers w2].
    cbn [fst] in Hanswers.
    assert (Hmembers : map (fun a => fst (snd a)) answers
                       = map Some (map (fun _ => m) (Nodes m))).
    { rewrite <- (map_map snd fst), Hanswers, !map_map. reflexivity. }
    rewrite Hmembers, isHealthy_verdict, !length_map, Nat.eqb_refl.
    rewrite verdict_all_agree.
    + eexists. split; [reflexivity|]. cbn [Cluster heap].
      split; [reflexivity | apply nth_error_last].
    + apply Forall_forall. intros v Hv. apply in_map_iff in Hv as (_ & <- & _).
      apply agrees_refl.
Qed.

(** C5: when the seed does not answer, [GetClusterConfig] returns the error
    of the probe and [Cluster] stays [nil]; nothing was allocated.  A later
    call whose seed answers therefore runs the discovery again, and
    publishes a configuration when the algorithm is known, [HostPort] is
    well formed and the other servers answer. *)
Theorem seed_probe_failure_publishes_nothing (s : Process W) hostport master e w1 :
  Cluster s = None ->
  GetSingleHashRing hostport (world s) = (master, Some e, w1) ->
  exists s1,
    GetClusterConfig GetSingleHashRing hostport s = Ret (nil_ptr, Some e, s1) /\
    Cluster s1 = None /\ heap s1 = heap s /\ HostPort s1 = HostPort s /\
    world s1 = w1 /\
    forall hostport2 m2 w2 server port ring0,
      GetSingleHashRing hostport2 w1 = (Some m2, None, w2) ->
      net.SplitHostPort (HostPort s) = (server, port, None) ->
      newRing (Algo m2) (Replicas m2) = Some ring0 ->
      Forall (fun a => fst (snd a) <> None)
             (fst (probePeers GetSingleHashRing server port (map hostOf (Nodes m2)) w2)) ->
      exists v s2 rest,
        GetClusterConfig GetSingleHashRing hostport2 s1
        = Ret (Some (length (heap s)), None, s2) /\
        Cluster s2 = Some (length (heap s)) /\
        nth_error (heap s2) (length (heap s))
        = Some (mkClusterConfig port (map hostOf (Nodes m2))
                                (Some (ringOf (Nodes m2) ring0)) v) /\
        probed s2 = (probed s ++ hostport :: hostport2 :: rest)%list.
Proof.
  destruct s as [hp c h w pr lg]. cbn [Cluster world HostPort heap probed].
  intros -> Hw.
  erewrite GetClusterConfig_seed_fails by eassumption.
  eexists. split; [reflexivity|]. cbn [Cluster world HostPort heap].
  repeat (split; [reflexivity|]).
  intros hostport2 m2 w2 server port ring0 Hw2 Hsplit Hring Hpeers.
  erewrite GetClusterConfig_discovers by (try reflexivity; eassumption).
  unfold discovered. cbn [heap HostPort probed logged].
  destruct (probePeers GetSingleHashRing server port (map hostOf (Nodes m2)) w2)
    as [answers w3].
  cbn [fst] in Hpeers.
  destruct (isHealthy_total m2 (ring := map (fun a => fst (snd a)) answers)) as [v Hv].
  { apply Forall_map. exact Hpeers. }
  rewrite Hv. exists v. eexists. exists (map fst answers).
  split; [reflexivity|]. cbn [Cluster heap probed].
  split; [reflexivity|]. split; [apply nth_error_last|].
  rewrite <- app_assoc. reflexivity.
Qed.

(** Without a cached object, a call that returns has asked the seed. *)
Lemma GetClusterConfig_probes_seed (s s' : Process W) hostport r :
  Cluster s = None ->
  GetClusterConfig GetSingleHashRing hostport s = Ret (r, s') ->
  exists rest, probed s' = (probed s ++ hostport :: rest)%list.
Proof.
  destruct s as [hp c h w pr lg]. cbn [Cluster probed]. intros ->.
  destruct (GetSingleHashRing hostport w) as [[master [err|]] w1] eqn:Hw.
  - erewrite GetClusterConfig_seed_fails by eassumption.
    intros [= <- <-]. exists []. reflexivity.
  - destruct (net.SplitHostPort hp) as [[server port] [err|]] eqn:Hsplit.
    + erewrite GetClusterConfig_bad_HostPort by eassumption.
      intros [= <- <-]. exists []. reflexivity.
    + erewrite GetClusterConfig_allocates by eassumption.
      destruct master as [m|]; [|discriminate].
      destruct (newRing (Algo m) (Replicas m)) as [ring0|] eqn:Hring.
      * erewrite selectRing_known by eassumption. cbn zeta.
        destruct (probePeers _ _ _ _ _) as [answers w2].
        destruct (isHealthy _ _) as [v|why]; [|discriminate].
        intros [= <- <-]. exists (map fst answers). cbn [probed].
        rewrite <- app_assoc. reflexivity.
      * rewrite selectRing_unknown by assumption.
        intros [= <- <-]. exists []. reflexivity.
Qed.

(** C6: once a call of [GetClusterConfig] has returned a configuration,
    every later call returns the same pointer and no error and leaves the
    whole process state as it was: the heap, and so the object, is
    unchanged, and no daemon is asked.  The test of [Cluster] is the only
    memoization: while [Cluster] is [nil], a call that returns has asked
    the seed again. *)
Theorem cached_config_returned_unchanged :
  (forall (s s' : Process W) hostport p e,
      GetClusterConfig GetSingleHashRing hostport s = Ret (Some p, e, s') ->
      forall hostports,
        callAll GetSingleHashRing hostports s'
        = Ret (map (fun _ => (Some p, None)) hostports, s')) /\
  (forall (s s' : Process W) hostport r,
      Cluster s = None ->
      GetClusterConfig GetSingleHashRing hostport s = Ret (r, s') ->
      exists rest, probed s' = (probed s ++ hostport :: rest)%list).
Proof.
  split.
  - intros s s' hostport p e Hfirst.
    apply GetClusterConfig_returns_Cluster in Hfirst.
    induction hostports as [|hp hostports IH]; [reflexivity|].
    cbn [callAll map].
    erewrite Go_bind_run by (apply GetClusterConfig_cached; exact Hfirst).
    erewrite Go_bind_run by exact IH.
    reflexivity.
  - apply GetClusterConfig_probes_seed.
Qed.

(** C10: with no member to compare, [isHealthy] returns whether the seed
    has no node: true exactly when its node list is empty.  So a cluster of
    one daemon, whose only node is the seed itself and which has no other
    server to ask, is published as not healthy. *)
Theorem no_members_healthy_iff_no_nodes :
  (forall m : JSONRingType,
      isHealthy (Some m) [] = Ret (length (Nodes m) =? 0)%nat /\
      (isHealthy (Some m) [] = Ret true <-> Nodes m = [])) /\
  (forall (s : Process W) hostport m w1 server port ring0 token,
      Cluster s = None ->
      GetSingleHashRing hostport (world s) = (Some m, None, w1) ->
      net.SplitHostPort (HostPort s) = (server, port, None) ->
      newRing (Algo m) (Replicas m) = Some ring0 ->
      Nodes m = [token] ->
      hostOf token = server ->
      exists s',
        GetClusterConfig GetSingleHashRing hostport s
        = Ret (Some (length (heap s)), None, s') /\
        Cluster s' = Some (length (heap s)) /\
        heap s' = (heap s ++ [mkClusterConfig port [server]
                                (Some (AddNode ring0 (nodeOf token))) false])%list /\
        world s' = w1 /\
        probed s' = (probed s ++ [hostport])%list).
Proof.
  split.
  - intros m. rewrite isHealthy_verdict. cbn [length verdict].
    destruct (Nodes m) as [|n ns]; cbn [length Nat.eqb].
    + split; [reflexivity | split; reflexivity].
    + split; [reflexivity | split; discriminate].
  - intros s hostport m w1 server port ring0 token Hnil Hw Hsplit Hring Hnodes Hhost.
    erewrite GetClusterConfig_discovers by eassumption.
    unfold discovered. rewrite Hnodes. cbn [map probePeers].
    rewrite Hhost, String.eqb_refl. cbn [map].
    rewrite isHealthy_verdict, Hnodes. cbn [length Nat.eqb].
    cbn [bind ret Monad_Outcome Outcome_bind peerLog flat_map].
    eexists. split; [reflexivity|]. cbn [Cluster heap world probed].
    repeat split.
Qed.

End DiscoveryFacts.

(** ** The claims on concrete runs *)

Lemma unknown_algorithm_leaves_partial_config_witness :
  exists s1,
    GetClusterConfig (scripted (allAnswer ringBogus)) "a:2003" (freshProcess "a:2003")
    = Ret (nil_ptr, Some "Unknown consistent hash algorithm: bogus", s1) /\
    Cluster s1 = Some 0 /\
    nth_error (heap s1) 0 = Some (mkClusterConfig "2003" [] nil_ptr false) /\
    forall hostport2,
      GetClusterConfig (scripted (allAnswer ringBogus)) hostport2 s1
      = Ret (Some 0, None, s1).
Proof.
  apply (@unknown_algorithm_leaves_partial_config nat RecordedRing _
           (scripted (allAnswer ringBogus)) (freshProcess "a:2003")
           "a:2003" ringBogus 1 "a" "2003");
    [reflexivity | reflexivity | reflexivity | discriminate | discriminate].
Defined.

(** C2: a server that cannot be reached is appended to the members as a
    [nil] pointer.  When the count check passes (here the host of
    [HostPort] is none of the servers, so both are asked), [isHealthy]
    dereferences it and the process panics, instead of publishing a
    configuration that is not healthy.  When the count check fails (here
    the seed is one of the servers and is not asked again), the verdict is
    false because of the counts, before the absent member is looked at. *)
Theorem unreachable_peer_is_dereferenced :
  GetClusterConfig (scripted (oneDown "b:2003" ringAB)) "localhost:2003"
                   (freshProcess "localhost:2003")
  = Panic NilDereference /\
  isHealthy (Some ringAB) [Some ringAB; nil_ptr] = Panic NilDereference /\
  exists s',
    GetClusterConfig (scripted (oneDown "b:2003" ringAB)) "a:2003" (freshProcess "a:2003")
    = Ret (Some 0, None, s') /\
    probed s' = ["a:2003"; "b:2003"] /\
    option_map (@Healthy _) (nth_error (heap s') 0) = Some false.
Proof.
  split; [vm_compute; reflexivity|].
  split; [vm_compute; reflexivity|].
  eexists. split; [vm_compute; reflexivity|].
  repeat split.
Qed.

(** C3: a seed and two other servers that all report the same three
    nodes, every probe succeeding, should be published as healthy with
    servers a, b, c.  The servers are as claimed, but [Healthy] is false:
    the seed is not asked again, so [isHealthy] is given two members, and
    its first test compares their number with the three nodes of the seed
    instead of with one less.  On its own, [isHealthy] returns false
    although each of the two members passes the three checks. *)
Theorem identical_answers_judged_unhealthy :
  isHealthy (Some ringABC) [Some ringABC; Some ringABC] = Ret false /\
  exists s',
    GetClusterConfig (scripted (allAnswer ringABC)) "a:2003" (freshProcess "a:2003")
    = Ret (Some 0, None, s') /\
    probed s' = ["a:2003"; "b:2003"; "c:2003"] /\
    option_map (@Servers _) (nth_error (heap s') 0) = Some ["a"; "b"; "c"] /\
    option_map (@Healthy _) (nth_error (heap s') 0) = Some false.
Proof.
  split; [vm_compute; reflexivity|].
  eexists. split; [vm_compute; reflexivity|].
  repeat split.
Qed.

Lemma healthy_when_counts_match_and_all_agree_witness :
  isHealthy (Some ringABC) [Some ringABC; Some ringABC; Some ringABC] = Ret true /\
  exists s',
    GetClusterConfig (scripted (allAnswer ringABC)) "seed:2003" (freshProcess "seed:2003")
    = Ret (Some 0, None, s') /\
    Cluster s' = Some 0 /\
    nth_error (heap s') 0
    = Some (mkClusterConfig "2003" ["a"; "b"; "c"]
              (Some (CarbonRing [mkNode "a" "0"; mkNode "b" "0"; mkNode "c" "0"])) true).
Proof.
  destruct (@healthy_when_counts_match_and_all_agree nat RecordedRing _
              (scripted (allAnswer ringABC))) as [Hchecks Hrun].
  split.
  - apply (Hchecks ringABC [ringABC; ringABC; ringABC]); [reflexivity|].
    repeat (constructor; [repeat split|]). constructor.
  - apply (Hrun (freshProcess "seed:2003") "seed:2003" ringABC "seed" "2003"
                (CarbonRing []));
      try reflexivity.
    simpl. intros [Ha|[Hb|[Hc|[]]]]; discriminate.
Defined.

(** C4: the address split into server and port is the package-level
    [HostPort], not the argument: called with ["a:2003"] while [HostPort]
    holds another address, [GetClusterConfig] asks the seed at ["a:2003"],
    then every server, the seed included, at the port of [HostPort], and
    publishes that port. *)
Theorem peers_addressed_through_stored_HostPort :
  exists s',
    GetClusterConfig (scripted (allAnswer ringAB)) "a:2003" (freshProcess "stale:9999")
    = Ret (Some 0, None, s') /\
    probed s' = ["a:2003"; "a:9999"; "b:9999"] /\
    option_map (@Port _) (nth_error (heap s') 0) = Some "9999" /\
    HostPorts (nth_error (heap s') 0) = Some ["a:9999"; "b:9999"].
Proof.
  eexists. split; [vm_compute; reflexivity|].
  repeat split.
Qed.

Lemma seed_probe_failure_publishes_nothing_witness :
  exists s1,
    GetClusterConfig (scripted (upAfterFirst ringABC)) "seed:2003" (freshProcess "seed:2003")
    = Ret (nil_ptr, Some "connection refused", s1) /\
    Cluster s1 = None /\
    exists v s2 rest,
      GetClusterConfig (scripted (upAfterFirst ringABC)) "seed:2003" s1
      = Ret (Some 0, None, s2) /\
      Cluster s2 = Some 0 /\
      nth_error (heap s2) 0
      = Some (mkClusterConfig "2003" ["a"; "b"; "c"]
                (Some (CarbonRing [mkNode "a" "0"; mkNode "b" "0"; mkNode "c" "0"])) v) /\
      probed s2 = ("seed:2003" :: "seed:2003" :: rest).
Proof.
  destruct (@seed_probe_failure_publishes_nothing nat RecordedRing _
              (scripted (upAfterFirst ringABC)) (freshProcess "seed:2003")
              "seed:2003" nil_ptr "connection refused" 1 eq_refl eq_refl)
    as (s1 & Hfirst & Hcache & _ & _ & _ & Hnext).
  exists s1. split; [exact Hfirst|]. split; [exact Hcache|].
  apply (Hnext "seed:2003" ringABC 2 "seed" "2003" (CarbonRing []));
    try reflexivity.
  vm_compute. repeat constructor; discriminate.
Defined.

Lemma cached_config_returned_unchanged_witness :
  callAll (scripted (allAnswer ringABC)) ["seed:2003"; "b:2003"; "nowhere"] afterDiscovery
  = Ret ([(Some 0, None); (Some 0, None); (Some 0, None)], afterDiscovery).
Proof.
  apply (proj1 (@cached_config_returned_unchanged nat RecordedRing _
                  (scripted (allAnswer ringABC)))
           (freshProcess "seed:2003") afterDiscovery "seed:2003" 0 None).
  vm_compute. reflexivity.
Defined.

Lemma no_members_healthy_iff_no_nodes_witness :
  isHealthy (Some (mkRing "carbon" 1 ["a:0"])) [] = Ret false /\
  isHealthy (Some (mkRing "carbon" 1 [])) [] = Ret true /\
  exists s',
    GetClusterConfig (scripted (allAnswer (mkRing "carbon" 1 ["a:0"]))) "a:2003"
                     (freshProcess "a:2003")
    = Ret (Some 0, None, s') /\
    Cluster s' = Some 0 /\
    heap s' = [mkClusterConfig "2003" ["a"] (Some (CarbonRing [mkNode "a" "0"])) false] /\
    world s' = 1 /\
    probed s' = ["a:2003"].
Proof.
  destruct (@no_members_healthy_iff_no_nodes nat RecordedRing _
              (scripted (allAnswer (mkRing "carbon" 1 ["a:0"])))) as [Hnone Hsingle].
  split; [exact (proj1 (Hnone (mkRing "carbon" 1 ["a:0"])))|].
  split; [exact (proj2 (proj2 (Hnone (mkRing "carbon" 1 []))) eq_refl)|].
  exact (Hsingle (freshProcess "a:2003") "a:2003" (mkRing "carbon" 1 ["a:0"]) 1
                 "a" "2003" (CarbonRing []) "a:0"
                 eq_refl eq_refl eq_refl eq_refl eq_refl eq_refl).
Defined.

(** * Further properties of the code *)

(** ** [isHealthy]: what a verdict means *)

Lemma verdict_true_all (m : JSONRingType) (ring : list (ptr JSONRingType)) :
  verdict m ring = Ret true ->
  Forall (fun v => exists x, v = Some x /\ Algo x = Algo m /\ Nodes x = Nodes m) ring.
Proof.
  induction ring as [|[u|] ring IH]; simpl; intros Htrue.
  - constructor.
  - destruct (agrees m u) eqn:Hu; [|discriminate].
    constructor; [|apply IH; exact Htrue].
    exists u. split; [reflexivity | apply agrees_true_iff; exact Hu].
  - discriminate.
Qed.

Lemma verdict_all_true (m : JSONRingType) (ring : list (ptr JSONRingType)) :
  Forall (fun v => exists x, v = Some x /\ Algo x = Algo m /\ Nodes x = Nodes m) ring ->
  verdict m ring = Ret true.
Proof.
  induction 1 as [|v ring (x & -> & Hx) _ IH]; simpl; [reflexivity|].
  rewrite (proj2 (agrees_true_iff m x) Hx). exact IH.
Qed.

Lemma verdict_panic (m : JSONRingType) (ring : list (ptr JSONRingType)) why :
  verdict m ring = Panic why -> why = NilDereference /\ In None ring.
Proof.
  induction ring as [|[u|] ring IH]; simpl; intros Hpanic.
  - discriminate.
  - destruct (agrees m u); [|discriminate].
    destruct (IH Hpanic) as [Hwhy Hin]. split; [exact Hwhy | right; exact Hin].
  - injection Hpanic as <-. split; [reflexivity | left; reflexivity].
Qed.

Lemma verdict_all_present (m : JSONRingType) (vs : list JSONRingType) :
  verdict m (map Some vs) = Ret (forallb (agrees m) vs).
Proof.
  induction vs as [|v vs IH]; simpl; [reflexivity|].
  destruct (agrees m v); [exact IH | reflexivity].
Qed.

Lemma forallb_Permutation {A : Type} (f : A -> bool) (l l' : list A) :
  Permutation l l' -> forallb f l = forallb f l'.
Proof.
  induction 1 as [|x l l' _ IH|x y l|l l' l'' _ IH1 _ IH2]; simpl.
  - reflexivity.
  - rewrite IH. reflexivity.
  - destruct (f x), (f y); reflexivity.
  - rewrite IH1. exact IH2.
Qed.

(** X1: [isHealthy] returns true exactly when there are as many members as
    the seed has nodes and every member is present and reports the
    algorithm and the node list of the seed. *)
Theorem isHealthy_true_iff (m : JSONRingType) (ring : list (ptr JSONRingType)) :
  isHealthy (Some m) ring = Ret true <->
  length (Nodes m) = length ring /\
  Forall (fun v => exists x, v = Some x /\ Algo x = Algo m /\ Nodes x = Nodes m) ring.
Proof.
  rewrite isHealthy_verdict.
  destruct (Nat.eqb_spec (length (Nodes m)) (length ring)) as [Hcount|Hcount].
  - split.
    + intros Htrue. split; [exact Hcount | apply verdict_true_all; exact Htrue].
    + intros [_ Hall]. apply verdict_all_true; exact Hall.
  - split; [discriminate | intros [Hc _]; contradiction].
Qed.

(** X2: [isHealthy] never indexes a node list out of range: the node counts
    are compared before the lists are walked.  Its only panic is the
    dereference of a [nil] pointer, the seed's or, once the count check has
    passed, a member's. *)
Theorem isHealthy_panics_only_on_nil (master : ptr JSONRingType)
    (ring : list (ptr JSONRingType)) (why : runtimeError) :
  isHealthy master ring = Panic why ->
  why = NilDereference /\
  (master = None \/
   exists m, master = Some m /\ length (Nodes m) = length ring /\ In None ring).
Proof.
  destruct master as [m|]; [|intros [= <-]; split; [reflexivity | left; reflexivity]].
  rewrite isHealthy_verdict.
  destruct (Nat.eqb_spec (length (Nodes m)) (length ring)) as [Hcount|Hcount];
    [|discriminate].
  intros Hpanic. apply verdict_panic in Hpanic as [Hwhy Hin].
  split; [exact Hwhy | right; exists m; auto].
Qed.

Lemma isHealthy_panics_only_on_nil_witness :
  NilDereference = NilDereference /\
  (Some ringAB = None \/
   exists m, Some ringAB = Some m /\
             length (Nodes m) = length [Some ringAB; @nil_ptr JSONRingType] /\
             In None [Some ringAB; @nil_ptr JSONRingType]).
Proof.
  apply (@isHealthy_panics_only_on_nil (Some ringAB) [Some ringAB; nil_ptr] NilDereference).
  reflexivity.
Defined.

(** X3: the order in which the members were collected does not matter when
    all of them are present: [isHealthy] has the same outcome on any
    rearrangement of the ring; and a true verdict survives any
    rearrangement of any ring. *)
Theorem isHealthy_member_order_irrelevant (m : JSONRingType) :
  (forall vs vs' : list JSONRingType,
      Permutation vs vs' ->
      isHealthy (Some m) (map Some vs) = isHealthy (Some m) (map Some vs')) /\
  (forall ring ring' : list (ptr JSONRingType),
      Permutation ring ring' ->
      isHealthy (Some m) ring = Ret true -> isHealthy (Some m) ring' = Ret true).
Proof.
  split.
  - intros vs vs' Hperm. rewrite !isHealthy_verdict, !length_map, !verdict_all_present.
    rewrite (Permutation_length Hperm), (forallb_Permutation (agrees m) Hperm).
    reflexivity.
  - intros ring ring' Hperm Htrue.
    apply isHealthy_true_iff in Htrue as [Hcount Hall].
    apply isHealthy_true_iff. split.
    + rewrite Hcount. apply Permutation_length. exact Hperm.
    + eapply Permutation_Forall; eassumption.
Qed.

Lemma isHealthy_member_order_irrelevant_witness :
  isHealthy (Some ringAB) [Some ringAB; Some ringBA]
  = isHealthy (Some ringAB) [Some ringBA; Some ringAB].
Proof.
  apply (proj1 (isHealthy_member_order_irrelevant ringAB) [ringAB; ringBA] [ringBA; ringAB]).
  apply perm_swap.
Defined.

(** ** [GetClusterConfig]: every way a call can end *)

Lemma occurs_hostOf (token : string) : occurs ":" (hostOf token) = false.
Proof.
  unfold hostOf. induction token as [|c token IH]; simpl; [reflexivity|].
  destruct (Ascii.eqb c ":") eqn:Hc; [reflexivity|].
  destruct (Split_cons token ":") as (f & fs & Hsplit).
  rewrite Hsplit in *. simpl in *. rewrite Hc, IH. reflexivity.
Qed.

Lemma hostOf_address (srv port : string) :
  occurs ":" srv = false -> hostOf (srv ++ ":" ++ port) = srv.
Proof.
  intros Hsrv. unfold hostOf.
  change (srv ++ ":" ++ port) with (srv ++ String ":" port).
  rewrite Split_first_sep by exact Hsrv. reflexivity.
Qed.

Lemma hostOf_addresses (port : string) (servers : list string) :
  Forall (fun srv => occurs ":" srv = false) servers ->
  map (fun srv => hostOf (srv ++ ":" ++ port)) servers = servers.
Proof.
  induction 1 as [|srv servers Hsrv _ IH]; [reflexivity|].
  cbn [map]. rewrite hostOf_address by exact Hsrv. rewrite IH. reflexivity.
Qed.

Section DiscoveryOutcomes.

Variable W : Type.
Context {R : Type} `{HashRing R}.
Variable GetSingleHashRing : string -> W -> Answer * W.

(** The addresses asked by the second loop do not depend on the answers. *)
Lemma probePeers_addresses server port servers : forall w,
  map fst (fst (probePeers GetSingleHashRing server port servers w))
  = map (fun srv => srv ++ ":" ++ port)
        (filter (fun srv => negb (srv =? server)) servers).
Proof.
  induction servers as [|srv servers IH]; intros w; [reflexivity|].
  cbn [probePeers filter]. destruct (srv =? server); cbn [negb]; [apply IH|].
  destruct (GetSingleHashRing (srv ++ ":" ++ port) w) as [a w1].
  specialize (IH w1).
  destruct (probePeers GetSingleHashRing server port servers w1) as [answers w2].
  cbn [fst map] in *. rewrite IH. reflexivity.
Qed.

Lemma filter_excluded_shorter (server : string) (servers : list string) :
  In server servers ->
  length (filter (fun srv => negb (srv =? server)) servers) < length servers.
Proof.
  induction servers as [|srv servers IH]; intros Hin; [contradiction|].
  cbn [filter]. destruct (String.eqb_spec srv server) as [->|Hne]; cbn [negb length].
  - pose proof (filter_length_le (fun srv => negb (srv =? server)) servers). lia.
  - destruct Hin as [Heq|Hin]; [contradiction|]. specialize (IH Hin). lia.
Qed.

(** What [discovered] returns, when it returns. *)
Lemma discovered_returns (s s' : Process W) hostport m w1 server port ring0 r :
  discovered GetSingleHashRing s hostport m w1 server port ring0 = Ret (r, s') ->
  exists v w2,
    isHealthy (Some m)
      (map (fun a => fst (snd a))
           (fst (probePeers GetSingleHashRing server port (map hostOf (Nodes m)) w1)))
    = Ret v /\
    r = (Some (length (heap s)), None) /\
    s' = mkProcess (HostPort s) (Some (length (heap s)))
           (heap s ++ [mkClusterConfig port (map hostOf (Nodes m))
                         (Some (ringOf (Nodes m) ring0)) v])
           w2
           (probed s ++ hostport ::
              map (fun srv => srv ++ ":" ++ port)
                  (filter (fun srv => negb (srv =? server)) (map hostOf (Nodes m))))
           (logged s ++
              peerLog server
                (fst (probePeers GetSingleHashRing server port (map hostOf (Nodes m)) w1))).
Proof.
  unfold discovered.
  pose proof (probePeers_addresses server port (map hostOf (Nodes m)) w1) as Haddr.
  destruct (probePeers GetSingleHashRing server port (map hostOf (Nodes m)) w1)
    as [answers w2].
  cbn [fst] in *.
  destruct (isHealthy (Some m) (map (fun a => fst (snd a)) answers)) as [v|why];
    [|discriminate].
  intros [= <- <-]. exists v, w2. rewrite Haddr. auto.
Qed.

(** A call that returns ended in one of five ways: the cached pointer, a
    seed that does not answer, a malformed [HostPort], an unknown
    algorithm, or a completed discovery. *)
Lemma GetClusterConfig_cases (s s' : Process W) hostport r :
  GetClusterConfig GetSingleHashRing hostport s = Ret (r, s') ->
  (exists p, Cluster s = Some p /\ r = (Some p, None) /\ s' = s) \/
  (Cluster s = None /\
   ((exists master e w1,
        GetSingleHashRing hostport (world s) = (master, Some e, w1) /\
        r = (None, Some e) /\
        s' = mkProcess (HostPort s) None (heap s) w1 (probed s ++ [hostport])
               (logged s ++ ["Abort: Cannot communicate with initial buckyd daemon."])) \/
    (exists master w1 server port e,
        GetSingleHashRing hostport (world s) = (master, None, w1) /\
        net.SplitHostPort (HostPort s) = (server, port, Some e) /\
        r = (None, Some e) /\
        s' = mkProcess (HostPort s) None (heap s) w1 (probed s ++ [hostport])
               (logged s ++ ["Abort: Invalid host:port representation: " ++ hostport])) \/
    (exists m w1 server port,
        GetSingleHashRing hostport (world s) = (Some m, None, w1) /\
        net.SplitHostPort (HostPort s) = (server, port, None) /\
        newRing (R := R) (Algo m) (Replicas m) = None /\
        r = (None, Some ("Unknown consistent hash algorithm: " ++ Algo m)) /\
        s' = mkProcess (HostPort s) (Some (length (heap s)))
               (heap s ++ [mkClusterConfig port [] None false]) w1
               (probed s ++ [hostport])
               (logged s ++ ["Unknown consistent hash algorithm: " ++ Algo m])) \/
    (exists m w1 server port ring0,
        GetSingleHashRing hostport (world s) = (Some m, None, w1) /\
        net.SplitHostPort (HostPort s) = (server, port, None) /\
        newRing (Algo m) (Replicas m) = Some ring0 /\
        discovered GetSingleHashRing s hostport m w1 server port ring0 = Ret (r, s')))).
Proof.
  destruct s as [hp [c|] h w pr lg]; cbn [Cluster world HostPort heap probed logged].
  - rewrite (GetClusterConfig_cached GetSingleHashRing
               (mkProcess hp (Some c) h w pr lg) hostport (p := c) eq_refl).
    intros [= <- <-]. left. exists c. auto.
  - intros Hrun. right. split; [reflexivity|].
    destruct (GetSingleHashRing hostport w) as [[master [err|]] w1] eqn:Hw.
    + erewrite GetClusterConfig_seed_fails in Hrun by eassumption.
      injection Hrun as <- <-. left. exists master, err, w1. auto.
    + destruct (net.SplitHostPort hp) as [[server port] [err|]] eqn:Hsplit.
      * erewrite GetClusterConfig_bad_HostPort in Hrun by eassumption.
        injection Hrun as <- <-. right. left. exists master, w1, server, port, err. auto.
      * destruct master as [m|].
        -- destruct (newRing (R := R) (Algo m) (Replicas m)) as [ring0|] eqn:Hring.
           ++ erewrite (GetClusterConfig_discovers GetSingleHashRing
                          (mkProcess hp None h w pr lg)) in Hrun
                by (try reflexivity; eassumption).
              right. right. right. exists m, w1, server, port, ring0. auto.
           ++ erewrite GetClusterConfig_allocates in Hrun by eassumption.
              rewrite selectRing_unknown in Hrun by assumption.
              cbn [HostPort Cluster heap world probed logged] in Hrun.
              injection Hrun as <- <-.
              right. right. left. exists m, w1, server, port. auto.
        -- erewrite GetClusterConfig_allocates in Hrun by eassumption.
           discriminate.
Qed.


(** ** [GetClusterConfig]: what its callers can rely on *)

(** X4: a call that returns gives either a pointer and no error, and the
    pointer is then the one held in [Cluster], or [nil] and an error; never
    both, never neither. *)
Theorem GetClusterConfig_pointer_xor_error (s s' : Process W) hostport c e :
  GetClusterConfig GetSingleHashRing hostport s = Ret (c, e, s') ->
  (exists p, c = Some p /\ e = None /\ Cluster s' = Some p) \/
  (c = None /\ exists msg, e = Some msg).
Proof.
  intros Hrun.
  destruct (GetClusterConfig_cases _ _ Hrun)
    as [(p & Hp & [= -> ->] & ->)
       |(_ & [(master & e0 & w1 & _ & [= -> ->] & _)
             |[(master & w1 & server & port & e0 & _ & _ & [= -> ->] & _)
              |[(m & w1 & server & port & _ & _ & _ & [= -> ->] & _)
               |(m & w1 & server & port & ring0 & _ & _ & _ & Hdisc)]]])].
  - left. exists p. auto.
  - right. eauto.
  - right. eauto.
  - right. eauto.
  - apply discovered_returns in Hdisc as (v & w2 & _ & [= -> ->] & ->).
    left. eexists. auto.
Qed.

(** X5: a call that returns has not touched what was there before: the
    package-level [HostPort] is the same, the objects allocated earlier are
    unchanged and at most one object was added, and the probe trace and the
    log were only appended to.  With an object cached the whole state is
    unchanged. *)
Theorem GetClusterConfig_frame (s s' : Process W) hostport r :
  GetClusterConfig GetSingleHashRing hostport s = Ret (r, s') ->
  HostPort s' = HostPort s /\
  (exists cells, heap s' = (heap s ++ cells)%list /\ length cells <= 1) /\
  (exists asked, probed s' = (probed s ++ asked)%list) /\
  (exists lines, logged s' = (logged s ++ lines)%list) /\
  (Cluster s <> None -> s' = s).
Proof.
  intros Hrun.
  destruct (GetClusterConfig_cases _ _ Hrun)
    as [(p & Hp & _ & ->)
       |(Hnil & [(master & e0 & w1 & _ & _ & ->)
                |[(master & w1 & server & port & e0 & _ & _ & _ & ->)
                 |[(m & w1 & server & port & _ & _ & _ & _ & ->)
                  |(m & w1 & server & port & ring0 & _ & _ & _ & Hdisc)]]])].
  - split; [reflexivity|]. split; [exists []; rewrite app_nil_r; auto|].
    split; [exists []; rewrite app_nil_r; reflexivity|].
    split; [exists []; rewrite app_nil_r; reflexivity | reflexivity].
  - cbn [HostPort heap probed logged].
    split; [reflexivity|]. split; [exists []; rewrite app_nil_r; auto|].
    split; [eexists; reflexivity|]. split; [eexists; reflexivity | congruence].
  - cbn [HostPort heap probed logged].
    split; [reflexivity|]. split; [exists []; rewrite app_nil_r; auto|].
    split; [eexists; reflexivity|]. split; [eexists; reflexivity | congruence].
  - cbn [HostPort heap probed logged].
    split; [reflexivity|]. split; [eexists; split; [reflexivity | simpl; lia]|].
    split; [eexists; reflexivity|]. split; [eexists; reflexivity | congruence].
  - apply discovered_returns in Hdisc as (v & w2 & _ & _ & ->).
    cbn [HostPort heap probed logged].
    split; [reflexivity|]. split; [eexists; split; [reflexivity | simpl; lia]|].
    split; [eexists; reflexivity|]. split; [eexists; reflexivity | congruence].
Qed.

(** X6: a configuration returned by a call that found nothing cached
    mirrors the answer of the seed: the seed answered without error with a
    ring of a known algorithm, the object is the one just allocated, its
    port is the port of [HostPort], its servers are the host names of the
    seed's node tokens, one per token and in the same order (a host with
    two instances is listed twice), and its ring is the ring of that
    algorithm with the node of every token added in order. *)
Theorem published_config_mirrors_seed (s s' : Process W) hostport p e :
  Cluster s = None ->
  GetClusterConfig GetSingleHashRing hostport s = Ret (Some p, e, s') ->
  exists m w1 server port v,
    GetSingleHashRing hostport (world s) = (Some m, None, w1) /\
    net.SplitHostPort (HostPort s) = (server, port, None) /\
    (Algo m = "carbon" \/ Algo m = "jump_fnv1a") /\
    p = length (heap s) /\
    nth_error (heap s') p
    = Some (mkClusterConfig port (map hostOf (Nodes m))
              (Some (ringOf (Nodes m)
                            (if Algo m =? "carbon" then NewCarbonHashRing
                             else NewJumpHashRing (Replicas m))))
              v) /\
    isHealthy (Some m)
      (map (fun a => fst (snd a))
           (fst (probePeers GetSingleHashRing server port (map hostOf (Nodes m)) w1)))
    = Ret v.
Proof.
  intros Hnil Hrun.
  destruct (GetClusterConfig_cases _ _ Hrun)
    as [(q & Hq & _)
       |(_ & [(master & e0 & w1 & _ & [=] & _)
             |[(master & w1 & server & port & e0 & _ & _ & [=] & _)
              |[(m & w1 & server & port & _ & _ & _ & [=] & _)
               |(m & w1 & server & port & ring0 & Hw & Hsplit & Hring & Hdisc)]]])].
  - congruence.
  - apply discovered_returns in Hdisc as (v & w2 & Hv & [= -> ->] & ->).
    exists m, w1, server, port, v.
    split; [exact Hw|]. split; [exact Hsplit|].
    unfold newRing in Hring.
    destruct (String.eqb_spec (Algo m) "carbon") as [Hcarbon|_].
    + injection Hring as <-.
      split; [left; exact Hcarbon|]. split; [reflexivity|].
      split; [apply nth_error_last | exact Hv].
    + destruct (String.eqb_spec (Algo m) "jump_fnv1a") as [Hjump|_]; [|discriminate].
      injection Hring as <-.
      split; [right; exact Hjump|]. split; [reflexivity|].
      split; [apply nth_error_last | exact Hv].
Qed.

(** X7: the servers of a configuration returned by a call that found
    nothing cached carry no port or instance: none contains a colon.  So
    the addresses that [HostPorts] builds from them give the servers back
    when cut at their first colon, and there is one address per server. *)
Theorem published_servers_have_no_colon (s s' : Process W) hostport p e :
  Cluster s = None ->
  GetClusterConfig GetSingleHashRing hostport s = Ret (Some p, e, s') ->
  exists cfg addresses,
    nth_error (heap s') p = Some cfg /\
    Forall (fun srv => occurs ":" srv = false) (Servers cfg) /\
    HostPorts (Some cfg) = Some addresses /\
    length addresses = length (Servers cfg) /\
    map hostOf addresses = Servers cfg.
Proof.
  intros Hnil Hrun.
  destruct (GetClusterConfig_cases _ _ Hrun)
    as [(q & Hq & _)
       |(_ & [(master & e0 & w1 & _ & [=] & _)
             |[(master & w1 & server & port & e0 & _ & _ & [=] & _)
              |[(m & w1 & server & port & _ & _ & _ & [=] & _)
               |(m & w1 & server & port & ring0 & _ & _ & _ & Hdisc)]]])].
  - congruence.
  - apply discovered_returns in Hdisc as (v & w2 & _ & [= -> ->] & ->).
    eexists. eexists. cbn [heap]. split; [apply nth_error_last|].
    cbn [Servers Port HostPorts].
    assert (Hclean : Forall (fun srv => occurs ":" srv = false) (map hostOf (Nodes m))).
    { apply Forall_forall. intros srv Hsrv.
      apply in_map_iff in Hsrv as (token & <- & _). apply occurs_hostOf. }
    split; [exact Hclean|]. split; [reflexivity|].
    split; [apply length_map|].
    rewrite map_map. apply hostOf_addresses. exact Hclean.
Qed.

(** X8: which daemons a discovery asks, and in which order: the seed at the
    address given, then every server of the published configuration other
    than the host of [HostPort], once per node token and in the order of
    the seed's node list, each at its name followed by the port. *)
Theorem peers_asked_in_seed_order (s s' : Process W) hostport p e :
  Cluster s = None ->
  GetClusterConfig GetSingleHashRing hostport s = Ret (Some p, e, s') ->
  exists server port cfg,
    net.SplitHostPort (HostPort s) = (server, port, None) /\
    nth_error (heap s') p = Some cfg /\
    Port cfg = port /\
    probed s'
    = (probed s ++ hostport ::
         map (fun srv => (srv ++ ":" ++ port)%string)
             (filter (fun srv => negb (srv =? server)%string) (Servers cfg)))%list.
Proof.
  intros Hnil Hrun.
  destruct (GetClusterConfig_cases _ _ Hrun)
    as [(q & Hq & _)
       |(_ & [(master & e0 & w1 & _ & [=] & _)
             |[(master & w1 & server & port & e0 & _ & _ & [=] & _)
              |[(m & w1 & server & port & _ & _ & _ & [=] & _)
               |(m & w1 & server & port & ring0 & _ & Hsplit & _ & Hdisc)]]])].
  - congruence.
  - apply discovered_returns in Hdisc as (v & w2 & _ & [= -> ->] & ->).
    exists server, port. eexists. cbn [heap probed].
    split; [exact Hsplit|]. split; [apply nth_error_last|].
    split; reflexivity.
Qed.

(** X9: a malformed [HostPort] is found out only after the seed was asked:
    the call returns the error of [net.SplitHostPort], logs the argument,
    not [HostPort], as the invalid address, and caches nothing.  As no call
    changes [HostPort], every later call whose seed answers without error
    fails in the same way, whatever address it is given. *)
Theorem malformed_HostPort_fails_every_call (s : Process W)
    hostport master w1 server port e :
  Cluster s = None ->
  GetSingleHashRing hostport (world s) = (master, None, w1) ->
  net.SplitHostPort (HostPort s) = (server, port, Some e) ->
  GetClusterConfig GetSingleHashRing hostport s
  = Ret (None, Some e,
         mkProcess (HostPort s) None (heap s) w1 (probed s ++ [hostport])
           (logged s ++ ["Abort: Invalid host:port representation: " ++ hostport])) /\
  forall (s1 s2 : Process W) hostport2 r master2 w2,
    Cluster s1 = None -> HostPort s1 = HostPort s ->
    GetSingleHashRing hostport2 (world s1) = (master2, None, w2) ->
    GetClusterConfig GetSingleHashRing hostport2 s1 = Ret (r, s2) ->
    r = (None, Some e) /\ Cluster s2 = None /\ heap s2 = heap s1.
Proof.
  intros Hnil Hw Hsplit. split.
  - destruct s as [hp c h w pr lg]. cbn [Cluster world HostPort heap probed logged] in *.
    subst c. eapply GetClusterConfig_bad_HostPort; eassumption.
  - intros s1 s2 hostport2 r master2 w2 Hnil1 Hhp Hw2 Hrun.
    destruct s1 as [hp c h w pr lg]. cbn [Cluster world HostPort heap] in *.
    subst c hp.
    erewrite GetClusterConfig_bad_HostPort in Hrun by eassumption.
    injection Hrun as <- <-. auto.
Qed.

(** X10: the only panic of [GetClusterConfig] is the dereference of a [nil]
    ring: the seed's, when [GetSingleHashRing] returned neither a ring nor
    an error, or that of a server asked in the second loop.  The first loop
    never panics: every node token has a first field, the second one is
    supplied when missing, and the ring was constructed before. *)
Theorem GetClusterConfig_panics_only_on_nil_answer (s : Process W) hostport why :
  GetClusterConfig GetSingleHashRing hostport s = Panic why ->
  why = NilDereference /\
  Cluster s = None /\
  exists w1,
    GetSingleHashRing hostport (world s) = (None, None, w1) \/
    exists m server port,
      GetSingleHashRing hostport (world s) = (Some m, None, w1) /\
      net.SplitHostPort (HostPort s) = (server, port, None) /\
      Exists (fun a => fst (snd a) = None)
             (fst (probePeers GetSingleHashRing server port (map hostOf (Nodes m)) w1)).
Proof.
  destruct s as [hp [c|] h w pr lg]; cbn [Cluster world HostPort].
  - rewrite (GetClusterConfig_cached GetSingleHashRing
               (mkProcess hp (Some c) h w pr lg) hostport (p := c) eq_refl).
    discriminate.
  - destruct (GetSingleHashRing hostport w) as [[master [err|]] w1] eqn:Hw.
    + erewrite GetClusterConfig_seed_fails by eassumption. discriminate.
    + destruct (net.SplitHostPort hp) as [[server port] [err|]] eqn:Hsplit.
      * erewrite GetClusterConfig_bad_HostPort by eassumption. discriminate.
      * destruct master as [m|].
        -- destruct (newRing (R := R) (Algo m) (Replicas m)) as [ring0|] eqn:Hring.
           ++ erewrite (GetClusterConfig_discovers GetSingleHashRing
                          (mkProcess hp None h w pr lg))
                by (try reflexivity; eassumption).
              unfold discovered.
              destruct (probePeers GetSingleHashRing server port (map hostOf (Nodes m)) w1)
                as [answers w2] eqn:Hpeers.
              rewrite isHealthy_verdict.
              destruct (_ =? _)%nat; [|discriminate].
              destruct (verdict m (map (fun a => fst (snd a)) answers)) as [v|why']
                eqn:Hverdict; [discriminate|].
              intros [= <-]. apply verdict_panic in Hverdict as [-> Hin].
              split; [reflexivity|]. split; [reflexivity|].
              exists w1. right. exists m, server, port.
              split; [reflexivity|]. split; [reflexivity|].
              cbn [fst]. apply in_map_iff in Hin as (a & Ha & Hina).
              apply Exists_exists. exists a. rewrite Hpeers. auto.
           ++ erewrite GetClusterConfig_allocates by eassumption.
              rewrite selectRing_unknown by assumption. discriminate.
        -- erewrite GetClusterConfig_allocates by eassumption.
           intros [= <-]. split; [reflexivity|]. split; [reflexivity|].
           exists w1. left. reflexivity.
Qed.

(** X11: when the host of [HostPort] is one of the servers the seed
    reports, the discovery always publishes [Healthy = false], whatever the
    other servers answer, and does not panic even when one of them cannot
    be reached: the seed is not asked again, so there are fewer members
    than nodes, and [isHealthy] returns at its first test. *)
Theorem seed_among_servers_never_healthy (s : Process W)
    hostport m w1 server port ring0 :
  Cluster s = None ->
  GetSingleHashRing hostport (world s) = (Some m, None, w1) ->
  net.SplitHostPort (HostPort s) = (server, port, None) ->
  newRing (Algo m) (Replicas m) = Some ring0 ->
  In server (map hostOf (Nodes m)) ->
  exists s',
    GetClusterConfig GetSingleHashRing hostport s
    = Ret (Some (length (heap s)), None, s') /\
    nth_error (heap s') (length (heap s))
    = Some (mkClusterConfig port (map hostOf (Nodes m))
              (Some (ringOf (Nodes m) ring0)) false).
Proof.
  intros Hnil Hw Hsplit Hring Hseed.
  erewrite GetClusterConfig_discovers by eassumption.
  unfold discovered.
  pose proof (probePeers_addresses server port (map hostOf (Nodes m)) w1) as Haddr.
  destruct (probePeers GetSingleHashRing server port (map hostOf (Nodes m)) w1)
    as [answers w2].
  cbn [fst] in Haddr.
  assert (Hfewer : length answers < length (Nodes m)).
  { rewrite <- (length_map fst answers), Haddr, length_map.
    rewrite <- (length_map hostOf (Nodes m)).
    apply filter_excluded_shorter. exact Hseed. }
  rewrite isHealthy_verdict, length_map.
  destruct (Nat.eqb_spec (length (Nodes m)) (length answers)) as [Heq|_]; [lia|].
  eexists. split; [reflexivity|]. cbn [heap]. apply nth_error_last.
Qed.

(** X12: a call that found nothing cached and returns an error has asked
    the seed once and no other server. *)
Theorem failed_call_asks_only_the_seed (s s' : Process W) hostport msg :
  Cluster s = None ->
  GetClusterConfig GetSingleHashRing hostport s = Ret (None, Some msg, s') ->
  probed s' = (probed s ++ [hostport])%list.
Proof.
  intros Hnil Hrun.
  destruct (GetClusterConfig_cases _ _ Hrun)
    as [(q & Hq & _)
       |(_ & [(master & e0 & w1 & _ & _ & ->)
             |[(master & w1 & server & port & e0 & _ & _ & _ & ->)
              |[(m & w1 & server & port & _ & _ & _ & _ & ->)
               |(m & w1 & server & port & ring0 & _ & _ & _ & Hdisc)]]])];
    try reflexivity.
  - congruence.
  - apply discovered_returns in Hdisc as (v & w2 & _ & [=] & _).
Qed.

(** X13: what [Healthy = true] tells about a configuration returned by a
    call that found nothing cached: the host of [HostPort] is none of its
    servers, so every server was asked, the seed under its ring name
    included, and each of them returned a ring with the algorithm and the
    node list of the seed's answer. *)
Theorem healthy_means_every_server_agreed (s s' : Process W) hostport p e cfg :
  Cluster s = None ->
  GetClusterConfig GetSingleHashRing hostport s = Ret (Some p, e, s') ->
  nth_error (heap s') p = Some cfg ->
  Healthy cfg = true ->
  exists m w1 server port,
    GetSingleHashRing hostport (world s) = (Some m, None, w1) /\
    net.SplitHostPort (HostPort s) = (server, port, None) /\
    ~ In server (Servers cfg) /\
    length (fst (probePeers GetSingleHashRing server port (Servers cfg) w1))
    = length (Servers cfg) /\
    Forall (fun a => exists x, fst (snd a) = Some x /\
                               Algo x = Algo m /\ Nodes x = Nodes m)
           (fst (probePeers GetSingleHashRing server port (Servers cfg) w1)).
Proof.
  intros Hnil Hrun Hcfg Hhealthy.
  destruct (GetClusterConfig_cases _ _ Hrun)
    as [(q & Hq & _)
       |(_ & [(master & e0 & w1 & _ & [=] & _)
             |[(master & w1 & server & port & e0 & _ & _ & [=] & _)
              |[(m & w1 & server & port & _ & _ & _ & [=] & _)
               |(m & w1 & server & port & ring0 & Hw & Hsplit & _ & Hdisc)]]])].
  - congruence.
  - apply discovered_returns in Hdisc as (v & w2 & Hv & [= -> ->] & ->).
    cbn [heap] in Hcfg. rewrite nth_error_last in Hcfg. injection Hcfg as <-.
    cbn [Healthy Servers] in *. subst v.
    pose proof (probePeers_addresses server port (map hostOf (Nodes m)) w1) as Haddr.
    set (answers := fst (probePeers GetSingleHashRing server port
                           (map hostOf (Nodes m)) w1)) in *.
    rewrite isHealthy_verdict, length_map in Hv.
    destruct (Nat.eqb_spec (length (Nodes m)) (length answers)) as [Hcount|_];
      [|discriminate].
    apply verdict_true_all in Hv.
    exists m, w1, server, port.
    split; [exact Hw|]. split; [exact Hsplit|].
    split; [|split].
    + intros Hin. apply filter_excluded_shorter in Hin.
      rewrite <- (length_map (fun srv => srv ++ ":" ++ port)), <- Haddr in Hin.
      rewrite !length_map in Hin. lia.
    + rewrite length_map. symmetry. exact Hcount.
    + apply Forall_forall. intros a Ha.
      rewrite Forall_forall in Hv. apply (Hv (fst (snd a))).
      apply (in_map (fun a => fst (snd a))). exact Ha.
Qed.

Lemma selectRing_nil server (s : Process W) :
  selectRing GetSingleHashRing server None s = Panic NilDereference.
Proof. reflexivity. Qed.

(** X14: the argument of [GetClusterConfig] only selects the daemon asked
    first.  Two calls from the same state whose arguments get the same
    answer from the network end alike: the same pointer and error, the same
    [Cluster], heap and network afterwards, or the same panic; they differ
    at most in the probe trace and the log. *)
Theorem argument_only_selects_the_seed (s : Process W) hostport1 hostport2 :
  GetSingleHashRing hostport1 (world s) = GetSingleHashRing hostport2 (world s) ->
  outcomeView (GetClusterConfig GetSingleHashRing hostport1 s)
  = outcomeView (GetClusterConfig GetSingleHashRing hostport2 s).
Proof.
  destruct s as [hp [c|] h w pr lg]; cbn [world]; intros Hsame.
  - rewrite !(GetClusterConfig_cached GetSingleHashRing
                (mkProcess hp (Some c) h w pr lg) _ (p := c) eq_refl).
    reflexivity.
  - destruct (GetSingleHashRing hostport1 w) as [[master [err|]] w1] eqn:Hw1;
      symmetry in Hsame.
    + erewrite !GetClusterConfig_seed_fails by eassumption. reflexivity.
    + destruct (net.SplitHostPort hp) as [[server port] [err|]] eqn:Hsplit.
      * erewrite !GetClusterConfig_bad_HostPort by eassumption. reflexivity.
      * erewrite !GetClusterConfig_allocates by eassumption.
        destruct master as [m|]; [|rewrite !selectRing_nil; reflexivity].
        destruct (newRing (R := R) (Algo m) (Replicas m)) as [ring0|] eqn:Hring.
        -- erewrite !selectRing_known by eassumption. cbn zeta.
           destruct (probePeers GetSingleHashRing server port (map hostOf (Nodes m)) w1)
             as [answers w2].
           destruct (isHealthy (Some m) (map (fun a => fst (snd a)) answers)) as [v|why];
             reflexivity.
        -- rewrite !selectRing_unknown by assumption. reflexivity.
Qed.

End DiscoveryOutcomes.

(** ** The further properties on concrete runs *)

Lemma GetClusterConfig_pointer_xor_error_witness :
  (exists p, Some 0 = Some p /\ @None error = None /\ Cluster afterDiscovery = Some p) \/
  (Some 0 = @None loc /\ exists msg, @None error = Some msg).
Proof.
  apply (@GetClusterConfig_pointer_xor_error nat RecordedRing _
           (scripted (allAnswer ringABC)) (freshProcess "seed:2003") afterDiscovery
           "seed:2003" (Some 0) None).
  vm_compute. reflexivity.
Defined.

Lemma GetClusterConfig_frame_witness :
  HostPort afterDiscovery = "seed:2003" /\
  exists asked, probed afterDiscovery = asked.
Proof.
  destruct (@GetClusterConfig_frame nat RecordedRing _
              (scripted (allAnswer ringABC)) (freshProcess "seed:2003") afterDiscovery
              "seed:2003" (Some 0, None))
    as (Hhp & _ & (asked & Hasked) & _).
  - vm_compute. reflexivity.
  - split; [exact Hhp | exists asked; exact Hasked].
Defined.

Lemma published_config_mirrors_seed_witness :
  exists m w1 server port v,
    scripted (allAnswer ringABC) "seed:2003" 0 = (Some m, None, w1) /\
    net.SplitHostPort "seed:2003" = (server, port, None) /\
    (Algo m = "carbon" \/ Algo m = "jump_fnv1a") /\
    0 = 0 /\
    nth_error (heap afterDiscovery) 0
    = Some (mkClusterConfig port (map hostOf (Nodes m))
              (Some (ringOf (Nodes m)
                            (if Algo m =? "carbon" then NewCarbonHashRing
                             else NewJumpHashRing (Replicas m))))
              v) /\
    isHealthy (Some m)
      (map (fun a => fst (snd a))
           (fst (probePeers (scripted (allAnswer ringABC)) server port
                            (map hostOf (Nodes m)) w1)))
    = Ret v.
Proof.
  apply (@published_config_mirrors_seed nat RecordedRing _
           (scripted (allAnswer ringABC)) (freshProcess "seed:2003") afterDiscovery
           "seed:2003" 0 None); vm_compute; reflexivity.
Defined.

Lemma published_servers_have_no_colon_witness :
  exists cfg addresses,
    nth_error (heap afterDiscovery) 0 = Some cfg /\
    Forall (fun srv => occurs ":" srv = false) (Servers cfg) /\
    HostPorts (Some cfg) = Some addresses /\
    length addresses = length (Servers cfg) /\
    map hostOf addresses = Servers cfg.
Proof.
  apply (@published_servers_have_no_colon nat RecordedRing _
           (scripted (allAnswer ringABC)) (freshProcess "seed:2003") afterDiscovery
           "seed:2003" 0 None); vm_compute; reflexivity.
Defined.

Lemma peers_asked_in_seed_order_witness :
  exists server port cfg,
    net.SplitHostPort "seed:2003" = (server, port, None) /\
    nth_error (heap afterDiscovery) 0 = Some cfg /\
    Port cfg = port /\
    probed afterDiscovery
    = ([] ++ "seed:2003" ::
         map (fun srv => (srv ++ ":" ++ port)%string)
             (filter (fun srv => negb (srv =? server)%string) (Servers cfg)))%list.
Proof.
  apply (@peers_asked_in_seed_order nat RecordedRing _
           (scripted (allAnswer ringABC)) (freshProcess "seed:2003") afterDiscovery
           "seed:2003" 0 None); vm_compute; reflexivity.
Defined.

Lemma malformed_HostPort_fails_every_call_witness :
  GetClusterConfig (scripted (allAnswer ringABC)) "a:2003" (freshProcess "nocolon")
  = Ret (None, Some "address nocolon: missing port in address",
         mkProcess "nocolon" None [] 1 ["a:2003"]
           ["Abort: Invalid host:port representation: a:2003"]).
Proof.
  apply (@malformed_HostPort_fails_every_call nat RecordedRing _
           (scripted (allAnswer ringABC)) (freshProcess "nocolon")
           "a:2003" (Some ringABC) 1 "" "" "address nocolon: missing port in address");
    reflexivity.
Defined.

Lemma GetClusterConfig_panics_only_on_nil_answer_witness :
  NilDereference = NilDereference /\
  Cluster (freshProcess "localhost:2003") = None /\
  exists w1,
    scripted (oneDown "b:2003" ringAB) "localhost:2003" 0 = (None, None, w1) \/
    exists m server port,
      scripted (oneDown "b:2003" ringAB) "localhost:2003" 0 = (Some m, None, w1) /\
      net.SplitHostPort "localhost:2003" = (server, port, None) /\
      Exists (fun a => fst (snd a) = None)
             (fst (probePeers (scripted (oneDown "b:2003" ringAB)) server port
                              (map hostOf (Nodes m)) w1)).
Proof.
  apply (@GetClusterConfig_panics_only_on_nil_answer nat RecordedRing _
           (scripted (oneDown "b:2003" ringAB)) (freshProcess "localhost:2003")
           "localhost:2003" NilDereference).
  vm_compute. reflexivity.
Defined.

Lemma seed_among_servers_never_healthy_witness :
  exists s',
    GetClusterConfig (scripted (oneDown "b:2003" ringAB)) "a:2003" (freshProcess "a:2003")
    = Ret (Some 0, None, s') /\
    nth_error (heap s') 0
    = Some (mkClusterConfig "2003" ["a"; "b"]
              (Some (CarbonRing [mkNode "a" "0"; mkNode "b" "0"])) false).
Proof.
  refine (@seed_among_servers_never_healthy nat RecordedRing _
            (scripted (oneDown "b:2003" ringAB)) (freshProcess "a:2003")
            "a:2003" ringAB 1 "a" "2003" (CarbonRing [])
            eq_refl eq_refl eq_refl eq_refl _).
  left. reflexivity.
Defined.

Lemma failed_call_asks_only_the_seed_witness :
  probed (mkProcess (R := RecordedRing) "seed:2003" None [] 1 ["seed:2003"]
            ["Abort: Cannot communicate with initial buckyd daemon."])
  = ([] ++ ["seed:2003"])%list.
Proof.
  apply (@failed_call_asks_only_the_seed nat RecordedRing _
           (scripted (upAfterFirst ringABC)) (freshProcess "seed:2003")
           (mkProcess "seed:2003" None [] 1 ["seed:2003"]
              ["Abort: Cannot communicate with initial buckyd daemon."])
           "seed:2003" "connection refused");
    reflexivity.
Defined.

Lemma healthy_means_every_server_agreed_witness :
  exists m w1 server port,
    scripted (allAnswer ringABC) "seed:2003" 0 = (Some m, None, w1) /\
    net.SplitHostPort "seed:2003" = (server, port, None) /\
    ~ In server ["a"; "b"; "c"] /\
    length (fst (probePeers (scripted (allAnswer ringABC)) server port ["a"; "b"; "c"] w1))
    = 3 /\
    Forall (fun a => exists x, fst (snd a) = Some x /\
                               Algo x = Algo m /\ Nodes x = Nodes m)
           (fst (probePeers (scripted (allAnswer ringABC)) server port ["a"; "b"; "c"] w1)).
Proof.
  refine (@healthy_means_every_server_agreed nat RecordedRing _
            (scripted (allAnswer ringABC)) (freshProcess "seed:2003") afterDiscovery
            "seed:2003" 0 None
            (mkClusterConfig "2003" ["a"; "b"; "c"]
               (Some (CarbonRing [mkNode "a" "0"; mkNode "b" "0"; mkNode "c" "0"])) true)
            eq_refl _ eq_refl eq_refl).
  vm_compute. reflexivity.
Defined.

Lemma argument_only_selects_the_seed_witness :
  outcomeView (GetClusterConfig (scripted (allAnswer ringAB)) "a:2003"
                                (freshProcess "a:2003"))
  = outcomeView (GetClusterConfig (scripted (allAnswer ringAB)) "b:2003"
                                  (freshProcess "a:2003")).
Proof.
  apply (@argument_only_selects_the_seed nat RecordedRing _
           (scripted (allAnswer ringAB)) (freshProcess "a:2003") "a:2003" "b:2003").
  reflexivity.
Defined.
